(** * Ludwig: configuration validation and DDP local-topology discovery

    A shallow embedding of
    - [ludwig/distributed/ddp.py]   ([local_rank_and_size]),
    - [ludwig/schema/__init__.py]   ([get_schema], [get_validator]),
    - [ludwig/config_validation/validations.py]
      (the semantic check battery and [validate_config]),
    together with the properties of these functions. *)

From Stdlib Require Import String Ascii ZArith Bool Lia Permutation List.
Import ListNotations.
Set Warnings "-register-all".
Local Open Scope string_scope.
Local Open Scope list_scope.
Local Open Scope Z_scope.

(** ** [ludwig/distributed/ddp.py] *)

Module Ddp.

(** What [dist.all_gather_object(output, (rank, host))] leaves in [output]:
    one [(global rank, host name)] pair per worker.  Python integers are
    unbounded, hence [Z]. *)
Definition gathered := list (Z * string).

(** One iteration of the [for other_rank, other_host in output] loop, on
    the pair of counters [(local_size, local_rank)]. *)
Definition count_step (rank : Z) (host : string)
    (acc : Z * Z) (entry : Z * string) : Z * Z :=
  let '(local_size, local_rank) := acc in
  let '(other_rank, other_host) := entry in
  if (other_host =? host)%string then
    (local_size + 1, if other_rank <? rank then local_rank + 1 else local_rank)
  else (local_size, local_rank).

(** [local_rank_and_size()], as a function of what the transport hands to
    the calling worker: its global rank ([dist.get_rank()]), its host name
    ([socket.gethostname()]) and the gathered list.  Returns
    [(local_rank, local_size)] like the source. *)
Definition local_rank_and_size (rank : Z) (host : string)
    (output : gathered) : Z * Z :=
  let '(local_size, local_rank) :=
    fold_left (count_step rank host) output (0, 0) in
  (local_rank, local_size).

(** The transport's all-gather in a group whose worker of global rank [i]
    runs on host [nth i hosts]: every worker receives the same list, in
    rank order. *)
Definition all_gather_object (hosts : list string) : gathered :=
  combine (map Z.of_nat (seq 0 (length hosts))) hosts.

(** [DDPStrategy.__init__]: the two fields set from [local_rank_and_size]. *)
Record DDPStrategy := { _local_rank : Z; _local_size : Z }.

Definition DDPStrategy_init (rank : Z) (host : string)
    (output : gathered) : DDPStrategy :=
  let '(local_rank, local_size) := local_rank_and_size rank host output in
  {| _local_rank := local_rank; _local_size := local_size |}.

Definition local_size (self : DDPStrategy) : Z := _local_size self.
Definition local_rank (self : DDPStrategy) : Z := _local_rank self.

(** *** Specification-side counting functions *)

Definition on_host (host : string) (entry : Z * string) : bool :=
  (snd entry =? host)%string.

Definition below (rank : Z) (entry : Z * string) : bool :=
  fst entry <? rank.

Definition host_count (host : string) (output : gathered) : nat :=
  length (filter (on_host host) output).

Definition lower_count (rank : Z) (host : string) (output : gathered) : nat :=
  length (filter (below rank) (filter (on_host host) output)).

(** The local rank a worker computes only depends on the entries of its own
    host. *)
Definition rank_among (workers : gathered) (entry : Z * string) : nat :=
  length (filter (below (fst entry)) workers).

(** The five-worker group of the example: H1 holds ranks 0, 2, 4 and H2
    holds ranks 1, 3. *)
Definition example_hosts : list string := ["H1"; "H2"; "H1"; "H2"; "H1"].

End Ddp.

(** ** Python values, exceptions and the operations the sources use *)

Module Py.

(** A configuration is a JSON-shaped Python object. *)
Inductive value :=
| VNone
| VBool (b : bool)
| VInt (z : Z)
| VStr (s : string)
| VList (l : list value)
| VDict (d : list (string * value)).

(** [Dict[str, Any]]: string keys, in insertion order. *)
Definition dict := list (string * value).

(** [Dict[str, List[str]]] as built by [get_feature_to_metric_names_map]:
    the keys are whatever objects the features carry under ["name"], kept
    in insertion order (the error messages print them in that order). *)
Definition metrics_map := list (value * list string).

(** The pieces of an f-string: literal text and interpolated objects. *)
Inductive fragment :=
| Lit (text : string)
| Fmt (v : value)
| FmtKeys (keys : list value)
| FmtMap (m : metrics_map).

Inductive exn :=
| KeyError (key : value)
| TypeError
| AttributeError
| ValueError (message : list fragment)
| ForeignError (cls : string) (detail : string).

(** The class of a raised exception object.  [ForeignError] stands for
    whatever the collaborators (upgrader, jsonschema, splitter) raise. *)
Definition exn_class (e : exn) : string :=
  match e with
  | KeyError _ => "KeyError"
  | TypeError => "TypeError"
  | AttributeError => "AttributeError"
  | ValueError _ => "ValueError"
  | ForeignError cls _ => cls
  end.

(** A call either raises ([inl]) or returns ([inr]). *)
Definition result (A : Type) : Type := exn + A.

Class Monad (m : Type -> Type) := {
  ret : forall {A}, A -> m A;
  bind : forall {A B}, m A -> (A -> m B) -> m B
}.

#[export] Instance Monad_result : Monad result := {
  ret := fun A a => inr a;
  bind := fun A B r k => match r with inl e => inl e | inr a => k a end
}.

Definition raise {A} (e : exn) : result A := inl e.

(** *** Dictionaries *)

Fixpoint dict_lookup (d : dict) (k : string) : option value :=
  match d with
  | [] => None
  | (k', v) :: d' => if (k' =? k)%string then Some v else dict_lookup d' k
  end.

(** [d[k]] on a dict. *)
Definition dict_getitem (d : dict) (k : string) : result value :=
  match dict_lookup d k with
  | Some v => inr v
  | None => raise (KeyError (VStr k))
  end.

(** [d.get(k, default)] on a dict. *)
Definition dict_get (d : dict) (k : string) (default : value) : value :=
  match dict_lookup d k with
  | Some v => v
  | None => default
  end.

(** [v[k]] with a string subscript on an arbitrary object: only a dict
    accepts it. *)
Definition getitem (v : value) (k : string) : result value :=
  match v with
  | VDict d => dict_getitem d k
  | _ => raise TypeError
  end.

(** [v.get(k, default)] on an arbitrary object: only a dict has [get]. *)
Definition get (v : value) (k : string) (default : value) : result value :=
  match v with
  | VDict d => inr (dict_get d k default)
  | _ => raise AttributeError
  end.

Fixpoint chars (s : string) : list value :=
  match s with
  | EmptyString => []
  | String c s' => VStr (String c EmptyString) :: chars s'
  end.

(** [for x in v]: lists yield their elements, dicts their keys, strings
    their characters; the other objects are not iterable. *)
Definition iterate (v : value) : result (list value) :=
  match v with
  | VList l => inr l
  | VDict d => inr (map (fun kv => VStr (fst kv)) d)
  | VStr s => inr (chars s)
  | _ => raise TypeError
  end.

Definition hashable (v : value) : bool :=
  match v with
  | VList _ | VDict _ => false
  | _ => true
  end.

(** Equality of dictionary keys; [True == 1] and [False == 0]. *)
Definition key_eqb (a b : value) : bool :=
  match a, b with
  | VNone, VNone => true
  | VStr s, VStr t => (s =? t)%string
  | VBool x, VBool y => Bool.eqb x y
  | VInt x, VInt y => x =? y
  | VBool x, VInt y => Z.b2z x =? y
  | VInt x, VBool y => x =? Z.b2z y
  | _, _ => false
  end.

Fixpoint map_lookup (m : metrics_map) (k : value) : option (list string) :=
  match m with
  | [] => None
  | (k', v) :: m' => if key_eqb k' k then Some v else map_lookup m' k
  end.

(** An assignment keeps the position (and the key object) of a key that
    is already there and appends a new one. *)
Fixpoint map_insert (m : metrics_map) (k : value) (v : list string)
    : metrics_map :=
  match m with
  | [] => [(k, v)]
  | (k', v') :: m' =>
      if key_eqb k' k then (k', v) :: m' else (k', v') :: map_insert m' k v
  end.

(** [m[k] = v] *)
Definition map_setitem (m : metrics_map) (k : value) (v : list string)
    : result metrics_map :=
  if hashable k then inr (map_insert m k v) else raise TypeError.

(** [m.keys()] *)
Definition map_keys (m : metrics_map) : list value := map fst m.

(** [k in m.keys()] *)
Definition map_contains (m : metrics_map) (k : value) : result bool :=
  if hashable k then
    inr (match map_lookup m k with Some _ => true | None => false end)
  else raise TypeError.

(** [m[k]] *)
Definition map_getitem (m : metrics_map) (k : value)
    : result (list string) :=
  if hashable k then
    match map_lookup m k with
    | Some v => inr v
    | None => raise (KeyError k)
    end
  else raise TypeError.

(** [v in names] for a list of strings: comparison by [==], no hashing. *)
Definition in_names (v : value) (names : list string) : bool :=
  match v with
  | VStr s => existsb (String.eqb s) names
  | _ => false
  end.

End Py.

Notation "x <- c ;; k" := (Py.bind c (fun x => k))
  (at level 61, c at next level, right associativity).
Notation "c ;; k" := (Py.bind c (fun _ => k))
  (at level 61, right associativity).

(** ** [ludwig/constants.py] *)

Module Constants.
(** Modelled from the spec: the string constants of [ludwig.constants],
    which is not among the sources; the spec gives the top-level keys of a
    configuration, the keys of a feature descriptor, the default model
    type and the names of the combined objective and of the loss metric. *)
Definition COMBINED := "combined".
Definition LOSS := "loss".
Definition MODEL_ECD := "ecd".
Definition MODEL_TYPE := "model_type".
Definition NAME := "name".
Definition TYPE := "type".
Definition INPUT_FEATURES := "input_features".
Definition OUTPUT_FEATURES := "output_features".
Definition COMBINER := "combiner".
Definition TRAINER := "trainer".
Definition PREPROCESSING := "preprocessing".
Definition SPLIT := "split".
Definition HYPEROPT := "hyperopt".
Definition DEFAULTS := "defaults".
End Constants.

(** ** [ludwig/schema/__init__.py] *)

Module Schema.
Import Py Constants.

(** The schema-fragment providers imported from the sub-packages of
    [ludwig.schema]; a fragment is a JSON document. *)
Record fragment_providers := {
  get_model_type_jsonschema : value;
  get_input_feature_jsonschema : value;
  get_output_feature_jsonschema : value;
  get_combiner_jsonschema : value;
  get_trainer_jsonschema : value -> value;
  get_preprocessing_jsonschema : value;
  get_hyperopt_jsonschema : value;
  get_defaults_jsonschema : value
}.

(** [get_schema(model_type)].  The [lru_cache] wrapper hashes its argument
    before the body runs; the cache itself does not change the value
    returned. *)
Definition get_schema (P : fragment_providers) (model_type : value)
    : result value :=
  if hashable model_type then
    let schema :=
      VDict
        [ ("type", VStr "object");
          ("properties",
           VDict
             [ (MODEL_TYPE, get_model_type_jsonschema P);
               (INPUT_FEATURES, get_input_feature_jsonschema P);
               (OUTPUT_FEATURES, get_output_feature_jsonschema P);
               (COMBINER, get_combiner_jsonschema P);
               (TRAINER, get_trainer_jsonschema P model_type);
               (PREPROCESSING, get_preprocessing_jsonschema P);
               (HYPEROPT, get_hyperopt_jsonschema P);
               (DEFAULTS, get_defaults_jsonschema P) ]);
          ("definitions", VDict []);
          ("required", VList [VStr INPUT_FEATURES; VStr OUTPUT_FEATURES]) ]
    in
    ret schema
  else raise TypeError.

(** The validator class is the Draft 7 one with its ["array"] type check
    redefined; [value] has lists only, a tuple being no JSON object. *)
Record validator := { is_array : value -> bool }.

Definition custom_is_array (instance : value) : bool :=
  match instance with
  | VList _ => true
  | _ => false
  end.

Definition get_validator : validator := {| is_array := custom_is_array |}.

End Schema.

(** ** [ludwig/config_validation/validations.py] *)

Module Validations.
Import Py Constants Schema.

(** The sixteen checks of the battery. *)
Inductive check :=
| ValidationMetricsAreValid
| FeatureNamesUnique
| TiedFeaturesAreValid
| DependentFeatures
| TrainingRunway
| GbmHorovodIncompatibility
| GbmFeatureTypes
| RayBackendInMemoryPreprocessing
| SequenceConcatCombinerRequirements
| TabtransformerCombinerRequirements
| ComparatorCombinerRequirements
| ClassBalancePreprocessing
| SamplingExclusivity
| HyperoptSearchSpace
| HyperoptMetricTargets
| GbmSingleOutputFeature.

(** What [validate_config] does to the outside, in the order it does it. *)
Inductive event :=
| CallUpgrade (config : dict)
| LockAcquire
| LockRelease
| CallGetSchema (model_type : value)
| CallGetValidator
| CallValidate (instance : dict) (schema : value)
| CallGetSplitter (kwargs : dict)
| CallSplitterValidate (config : dict)
| CallCheck (c : check) (config : dict).

(** Computations that may raise and that leave a trace of events; the
    trace survives an exception. *)
Definition M (A : Type) : Type := list event -> result A * list event.

#[export] Instance Monad_M : Monad M := {
  ret := fun A a tr => (inr a, tr);
  bind := fun A B m k tr =>
    match m tr with
    | (inl e, tr') => (inl e, tr')
    | (inr a, tr') => k a tr'
    end
}.

Definition emit (ev : event) : M unit := fun tr => (inr tt, tr ++ [ev]).

Definition lift {A} (r : result A) : M A := fun tr => (r, tr).

(** A call of a function, recorded before it runs. *)
Definition call {A} (ev : event) (r : result A) : M A :=
  emit ev ;; lift r.

(** [with lock: body]: the lock is released on the way out, whether the
    body returns or raises. *)
Definition with_lock {A} (body : M A) : M A :=
  fun tr =>
    let '(r, tr') := body (tr ++ [LockAcquire]) in
    (r, tr' ++ [LockRelease]).

Definition run {A} (m : M A) : result A * list event := m [].

(** The collaborators [validate_config] imports from elsewhere. *)
Record collaborators := {
  providers : fragment_providers;
  upgrade_config_dict_to_latest_version : dict -> result dict;
  validate : dict -> value -> validator -> result unit;
  splitter : Type;
  get_splitter : dict -> result splitter;
  splitter_validate : splitter -> dict -> result unit
}.

(** Docstring: Checks that all feature names are unique.  The body is
    [pass]. *)
Definition check_feature_names_unique (config : dict) : result unit :=
  ret tt.

(** Docstring: Checks that all tied parameters map to existing input feature
    names.  The body is [pass]. *)
Definition check_tied_features_are_valid (config : dict) : result unit :=
  ret tt.

(** Docstring: Checks that dependent features map to existing output
    features, and no circular dependencies.  There is no body beyond the
    docstring. *)
Definition check_dependent_features (config : dict) : result unit :=
  ret tt.

(** Docstring: Checks that checkpoints_per_epoch and steps_per_checkpoint
    are not simultaneously defined.  The body is [pass]. *)
Definition check_training_runway (config : dict) : result unit :=
  ret tt.

(** Docstring: Checks that GBM model type is not being used with the horovod
    backend.  The body is [pass]. *)
Definition check_gbm_horovod_incompatibility (config : dict)
    : result unit :=
  ret tt.

(** Docstring: Checks that only tabular features are used with GBM models.
    The body is [pass]. *)
Definition check_gbm_feature_types (config : dict) : result unit :=
  ret tt.

(** Docstring: Checks if it is a ray backend, then
    feature[preprocessing][in_memory] must be true.  The body is [pass]. *)
Definition check_ray_backend_in_memory_preprocessing (config : dict)
    : result unit :=
  ret tt.

(** Docstring: Checks sequence concat combiner requirements. At least one of
    the input features should be a sequence feature.  The body is [pass]. *)
Definition check_sequence_concat_combiner_requirements (config : dict)
    : result unit :=
  ret tt.

(** Docstring: Checks TabTransformer requirements. reduce_output cannot be
    None.  The body is [pass]. *)
Definition check_tabtransformer_combiner_requirements (config : dict)
    : result unit :=
  ret tt.

(** Docstring: Checks ComparatorCombiner requirements. All of the feature
    names for entity_1 and entity_2 are valid features.  The body is [pass]. *)
Definition check_comparator_combiner_requirements (config : dict)
    : result unit :=
  ret tt.

(** Docstring: Class balancing is only available for datasets with a single
    output feature.  The body is [pass]. *)
Definition check_class_balance_preprocessing (config : dict)
    : result unit :=
  ret tt.

(** Docstring: Oversample minority and undersample majority are mutually
    exclusive.  The body is [pass]. *)
Definition check_sampling_exclusivity (config : dict) : result unit :=
  ret tt.

(** Docstring: Check that all hyperopt parameters search spaces are valid.
    The body is [pass]. *)
Definition check_hyperopt_search_space (config : dict) : result unit :=
  ret tt.

(** Docstring: Check that hyperopt metric targets are valid.  The body is
    [pass]. *)
Definition check_hyperopt_metric_targets (config : dict) : result unit :=
  ret tt.

(** Docstring: GBM models only support a single output feature.  The body is
    [pass]. *)
Definition check_gbm_single_output_feature (config : dict) : result unit :=
  ret tt.

Section Registry.

(** [output_type_registry[t].metric_functions] for the registered output
    feature types [t]: the feature metric registry, keyed by the type
    string and giving the list of valid metric names of that type. *)
Variable output_type_registry : string -> option (list string).

(** [output_type_registry[t].metric_functions] for an arbitrary object
    [t]. *)
Definition registry_getitem (t : value) : result (list string) :=
  if hashable t then
    match t with
    | VStr s =>
        match output_type_registry s with
        | Some metric_functions => ret metric_functions
        | None => raise (KeyError t)
        end
    | _ => raise (KeyError t)
    end
  else raise TypeError.

(** The body of the [for output_feature in output_features] loop,
    threaded through the features left to visit. *)
Fixpoint collect_metric_names (output_features : list value)
    (metrics_names : metrics_map) : result metrics_map :=
  match output_features with
  | [] => ret metrics_names
  | output_feature :: rest =>
      output_feature_name <- getitem output_feature NAME ;;
      output_feature_type <- getitem output_feature TYPE ;;
      metric_functions <- registry_getitem output_feature_type ;;
      metrics_names' <-
        map_setitem metrics_names output_feature_name metric_functions ;;
      collect_metric_names rest metrics_names'
  end.

Definition get_feature_to_metric_names_map (output_features : value)
    : result metrics_map :=
  features <- iterate output_features ;;
  metrics_names <- collect_metric_names features [] ;;
  map_setitem metrics_names (VStr COMBINED) [LOSS].

Definition check_validation_metrics_are_valid (config : dict)
    : result unit :=
  output_features <- dict_getitem config OUTPUT_FEATURES ;;
  feature_to_metric_names_map <-
    get_feature_to_metric_names_map output_features ;;
  trainer <- dict_getitem config TRAINER ;;
  validation_field <- getitem trainer "validation_field" ;;
  trainer <- dict_getitem config TRAINER ;;
  validation_metric <- getitem trainer "validation_metric" ;;
  known_field <- map_contains feature_to_metric_names_map validation_field ;;
  if negb known_field then
    raise (ValueError
      [ Lit "The specified trainer.validation_field '";
        Fmt validation_field;
        Lit "' is not valid. ";
        Lit "Available validation fields are: ";
        FmtKeys (map_keys feature_to_metric_names_map) ])
  else
    metric_names <- map_getitem feature_to_metric_names_map validation_field ;;
    let valid_validation_metric := in_names validation_metric metric_names in
    if negb valid_validation_metric then
      raise (ValueError
        [ Lit "The specified trainer.validation_metric '";
          Fmt validation_metric;
          Lit "' is not valid for the";
          Lit "trainer.validation_field '";
          Fmt validation_field;
          Lit "'. ";
          Lit "Available (validation_field, validation_metric) pairs are ";
          FmtMap feature_to_metric_names_map ])
    else ret tt.

Variable env : collaborators.

Definition run_check (c : check) (f : dict -> result unit)
    (config : dict) : M unit :=
  call (CallCheck c config) (f config).

Definition validate_config (config : dict)
    (include_auxiliary_validations : bool) : M unit :=
  updated_config <-
    call (CallUpgrade config)
         (upgrade_config_dict_to_latest_version env config) ;;
  let model_type := dict_get updated_config MODEL_TYPE (VStr MODEL_ECD) in
  with_lock
    (schema <- call (CallGetSchema model_type)
                    (get_schema (providers env) model_type) ;;
     cls <- call CallGetValidator (ret get_validator) ;;
     call (CallValidate updated_config schema)
          (validate env updated_config schema cls)) ;;
  if include_auxiliary_validations then
    split_options <-
      lift (get (dict_get updated_config PREPROCESSING (VDict []))
                SPLIT (VDict [])) ;;
    kwargs <-
      lift (match split_options with
            | VDict kwargs => ret kwargs
            | _ => raise TypeError
            end) ;;
    splitter <- call (CallGetSplitter kwargs) (get_splitter env kwargs) ;;
    call (CallSplitterValidate updated_config)
         (splitter_validate env splitter updated_config) ;;
    run_check ValidationMetricsAreValid
      check_validation_metrics_are_valid updated_config ;;
    run_check FeatureNamesUnique
      check_feature_names_unique updated_config ;;
    run_check TiedFeaturesAreValid
      check_tied_features_are_valid updated_config ;;
    run_check DependentFeatures
      check_dependent_features updated_config ;;
    run_check TrainingRunway
      check_training_runway updated_config ;;
    run_check GbmHorovodIncompatibility
      check_gbm_horovod_incompatibility updated_config ;;
    run_check GbmFeatureTypes
      check_gbm_feature_types updated_config ;;
    run_check RayBackendInMemoryPreprocessing
      check_ray_backend_in_memory_preprocessing updated_config ;;
    run_check SequenceConcatCombinerRequirements
      check_sequence_concat_combiner_requirements updated_config ;;
    run_check TabtransformerCombinerRequirements
      check_tabtransformer_combiner_requirements updated_config ;;
    run_check ComparatorCombinerRequirements
      check_comparator_combiner_requirements updated_config ;;
    run_check ClassBalancePreprocessing
      check_class_balance_preprocessing updated_config ;;
    run_check SamplingExclusivity
      check_sampling_exclusivity updated_config ;;
    run_check HyperoptSearchSpace
      check_hyperopt_search_space updated_config ;;
    run_check HyperoptMetricTargets
      check_hyperopt_metric_targets updated_config ;;
    run_check GbmSingleOutputFeature
      check_gbm_single_output_feature updated_config
  else ret tt.

End Registry.

End Validations.

(** ** Sample collaborators and configurations for concrete runs *)

Module Samples.
Import Py Constants Schema Validations.

(** A registry with three output feature types. *)
Definition sample_registry (type : string) : option (list string) :=
  if (type =? "binary")%string then Some ["loss"; "accuracy"; "roc_auc"]
  else if (type =? "category")%string then
    Some ["loss"; "accuracy"; "hits_at_k"]
  else if (type =? "number")%string then
    Some ["loss"; "mean_squared_error"; "mean_absolute_error"; "r2"]
  else None.

Definition empty_fragments : fragment_providers :=
  {| get_model_type_jsonschema := VDict [];
     get_input_feature_jsonschema := VDict [];
     get_output_feature_jsonschema := VDict [];
     get_combiner_jsonschema := VDict [];
     get_trainer_jsonschema := fun _ => VDict [];
     get_preprocessing_jsonschema := VDict [];
     get_hyperopt_jsonschema := VDict [];
     get_defaults_jsonschema := VDict [] |}.

(** Collaborators that let everything through: the upgrader returns the
    configuration as it is, the structural validation and the splitter
    accept. *)
Definition permissive : collaborators :=
  {| providers := empty_fragments;
     upgrade_config_dict_to_latest_version := fun config => inr config;
     validate := fun _ _ _ => inr tt;
     splitter := unit;
     get_splitter := fun _ => inr tt;
     splitter_validate := fun _ _ => inr tt |}.

Definition feature (name type : string) : value :=
  VDict [(NAME, VStr name); (TYPE, VStr type)].

Definition trainer_on (field metric : string) : value :=
  VDict [("validation_field", VStr field); ("validation_metric", VStr metric)].

Definition config_of (output_features : list value) (trainer : value)
    : dict :=
  [ (INPUT_FEATURES, VList [feature "x" "number"]);
    (OUTPUT_FEATURES, VList output_features);
    (TRAINER, trainer) ].

(** A valid configuration. *)
Definition plain_config : dict :=
  config_of [feature "y" "category"] (trainer_on "y" "accuracy").

(** The required keys only: no trainer section. *)
Definition config_without_trainer : dict :=
  [ (INPUT_FEATURES, VList [feature "x" "number"]);
    (OUTPUT_FEATURES, VList [feature "y" "category"]) ].

(** [trainer.validation_field = "nonexistent"] *)
Definition config_unknown_field : dict :=
  config_of [feature "y" "category"] (trainer_on "nonexistent" "accuracy").

(** An output feature whose type the registry does not know. *)
Definition config_unregistered_type : dict :=
  config_of [feature "y" "bogus"] (trainer_on COMBINED LOSS).

(** Two output features of the same name. *)
Definition config_duplicate_outputs : dict :=
  config_of [feature "y" "category"; feature "y" "number"]
            (trainer_on COMBINED LOSS).

(** [checkpoints_per_epoch = 2] and [steps_per_checkpoint = 100] both set. *)
Definition config_both_checkpoint_options : dict :=
  config_of [feature "y" "category"]
    (VDict [ ("checkpoints_per_epoch", VInt 2);
             ("steps_per_checkpoint", VInt 100);
             ("validation_field", VStr COMBINED);
             ("validation_metric", VStr LOSS) ]).

(** An output feature that is itself called ["combined"]. *)
Definition config_feature_named_combined : dict :=
  config_of [feature COMBINED "category"] (trainer_on COMBINED "accuracy").

End Samples.

(** ** Specification-side definitions *)

Module Spec.
Import Py Constants Schema Validations.

(** *** Reading a configuration *)

Definition feature_entry (feature : value) (key : string) : option value :=
  match feature with
  | VDict d => dict_lookup d key
  | _ => None
  end.

Definition trainer_entry (config : dict) (key : string) : option value :=
  match dict_lookup config TRAINER with
  | Some (VDict trainer) => dict_lookup trainer key
  | _ => None
  end.

Definition validation_field_of (config : dict) : option value :=
  trainer_entry config "validation_field".

Definition validation_metric_of (config : dict) : option value :=
  trainer_entry config "validation_metric".

Definition output_features_of (config : dict) : list value :=
  match dict_lookup config OUTPUT_FEATURES with
  | Some (VList features) => features
  | _ => []
  end.

Definition feature_name (feature : value) : option string :=
  match feature_entry feature NAME with
  | Some (VStr name) => Some name
  | _ => None
  end.

Definition feature_type (feature : value) : option string :=
  match feature_entry feature TYPE with
  | Some (VStr type) => Some type
  | _ => None
  end.

(** *** The shape of a configuration

    A configuration is a mapping whose output features, when present, are a
    list of mappings with string names and types, and whose trainer, when
    present, is a mapping. *)

Definition is_str (v : value) : bool :=
  match v with
  | VStr _ => true
  | _ => false
  end.

Definition opt_all (p : value -> bool) (o : option value) : bool :=
  match o with
  | Some v => p v
  | None => true
  end.

Definition feature_typed (feature : value) : bool :=
  match feature with
  | VDict d =>
      opt_all is_str (dict_lookup d NAME) && opt_all is_str (dict_lookup d TYPE)
  | _ => false
  end.

Definition features_typed (v : value) : bool :=
  match v with
  | VList features => forallb feature_typed features
  | _ => false
  end.

Definition is_mapping (v : value) : bool :=
  match v with
  | VDict _ => true
  | _ => false
  end.

Definition config_typed (config : dict) : bool :=
  opt_all features_typed (dict_lookup config OUTPUT_FEATURES)
  && opt_all is_mapping (dict_lookup config TRAINER).

(** Every output feature carries a name and a type. *)
Definition carries_name_and_type (feature : value) : bool :=
  match feature_name feature, feature_type feature with
  | Some _, Some _ => true
  | _, _ => false
  end.

Definition field_error (field : value) (m : metrics_map) : exn :=
  ValueError
    [ Lit "The specified trainer.validation_field '";
      Fmt field;
      Lit "' is not valid. ";
      Lit "Available validation fields are: ";
      FmtKeys (map_keys m) ].

Definition metric_error (metric field : value) (m : metrics_map) : exn :=
  ValueError
    [ Lit "The specified trainer.validation_metric '";
      Fmt metric;
      Lit "' is not valid for the";
      Lit "trainer.validation_field '";
      Fmt field;
      Lit "'. ";
      Lit "Available (validation_field, validation_metric) pairs are ";
      FmtMap m ].

(** The checks in the order of the table of the semantic check battery. *)
Definition battery : list check :=
  [ ValidationMetricsAreValid;
    FeatureNamesUnique;
    TiedFeaturesAreValid;
    DependentFeatures;
    TrainingRunway;
    GbmHorovodIncompatibility;
    GbmFeatureTypes;
    RayBackendInMemoryPreprocessing;
    SequenceConcatCombinerRequirements;
    TabtransformerCombinerRequirements;
    ComparatorCombinerRequirements;
    ClassBalancePreprocessing;
    SamplingExclusivity;
    HyperoptSearchSpace;
    HyperoptMetricTargets;
    GbmSingleOutputFeature ].

(** The events of the auxiliary phase: the splitter and the checks. *)
Definition auxiliary (ev : event) : bool :=
  match ev with
  | CallGetSplitter _ | CallSplitterValidate _ | CallCheck _ _ => true
  | _ => false
  end.

(** The model type [validate_config] asks the schema for. *)
Definition model_type_of (updated_config : dict) : value :=
  dict_get updated_config MODEL_TYPE (VStr MODEL_ECD).

(** The trace of a structural validation that ran to its end. *)
Definition structural_trace (config updated_config : dict) (schema : value)
    : list event :=
  [ CallUpgrade config;
    LockAcquire;
    CallGetSchema (model_type_of updated_config);
    CallGetValidator;
    CallValidate updated_config schema;
    LockRelease ].

Definition splitter_trace (updated_config kwargs : dict) : list event :=
  [ CallGetSplitter kwargs; CallSplitterValidate updated_config ].

(** The exception classes the check itself can raise. *)
Definition builtin (e : exn) : Prop :=
  match e with
  | KeyError _ | TypeError | ValueError _ => True
  | _ => False
  end.

(** The exceptions of a failed subscript: a missing key, or an object that
    does not take the subscript. *)
Definition lookup_error (e : exn) : Prop :=
  match e with
  | KeyError _ | TypeError => True
  | _ => False
  end.

(** An exception names an object when its message interpolates it. *)
Definition mentions (e : exn) (v : value) : Prop :=
  match e with
  | ValueError message => In (Fmt v) message
  | KeyError key => key = v
  | _ => False
  end.

(** The tail of [check_validation_metrics_are_valid], from the two comments
    [# Check validation_field.] and [# Check validation_metric.] on. *)
Definition check_fields (m : metrics_map) (field metric : value)
    : result unit :=
  known_field <- map_contains m field ;;
  if negb known_field then raise (field_error field m)
  else
    metric_names <- map_getitem m field ;;
    if negb (in_names metric metric_names) then
      raise (metric_error metric field m)
    else ret tt.

(** A configuration misses one of the keys the check subscripts. *)
Definition lacks_required_key (config : dict) : Prop :=
  dict_lookup config TRAINER = None \/
  validation_field_of config = None \/
  validation_metric_of config = None \/
  exists feature,
    In feature (output_features_of config) /\
    (feature_entry feature NAME = None \/ feature_entry feature TYPE = None).

(** [trainer.validation_field] names an output feature or the combined
    objective. *)
Definition field_known (config : dict) : Prop :=
  exists field,
    validation_field_of config = Some (VStr field) /\
    (field = COMBINED \/
     In (Some field) (map feature_name (output_features_of config))).

Section Registry.

Variable output_type_registry : string -> option (list string).

(** The name of a feature and the metric names registered for its type. *)
Definition feature_metrics (feature : value) : option (string * list string) :=
  match feature_name feature, feature_type feature with
  | Some name, Some type =>
      match output_type_registry type with
      | Some metric_functions => Some (name, metric_functions)
      | None => None
      end
  | _, _ => None
  end.

(** A feature with a name and a registered type. *)
Definition well_formed (feature : value) : bool :=
  match feature_metrics feature with
  | Some _ => true
  | None => false
  end.

(** The map the loop of [get_feature_to_metric_names_map] builds when no
    feature makes it raise. *)
Definition build (features : list value) (m : metrics_map) : metrics_map :=
  fold_left
    (fun m feature =>
       match feature_metrics feature with
       | Some (name, metric_functions) =>
           map_insert m (VStr name) metric_functions
       | None => m
       end)
    features m.

Definition full_map (features : list value) : metrics_map :=
  map_insert (build features []) (VStr COMBINED) [LOSS].

(** The metric names of the last feature of the list that is called
    [name]. *)
Fixpoint last_metrics (features : list value) (name : string)
    : option (list string) :=
  match features with
  | [] => None
  | feature :: rest =>
      match last_metrics rest name with
      | Some metric_functions => Some metric_functions
      | None =>
          match feature_metrics feature with
          | Some (name', metric_functions) =>
              if (name' =? name)%string then Some metric_functions else None
          | None => None
          end
      end
  end.

(** The metric names a validation field stands for: the loss alone for the
    combined objective, else those of the last output feature of that
    name. *)
Definition metrics_of_field (features : list value) (field : string)
    : option (list string) :=
  if (COMBINED =? field)%string then Some [LOSS]
  else last_metrics features field.

Local Abbreviation check_validation_metrics_are_valid :=
  (check_validation_metrics_are_valid output_type_registry).

(** [trainer.validation_metric] is one of the metric names its field stands
    for. *)
Definition metric_registered (config : dict) : Prop :=
  exists field metric names,
    validation_field_of config = Some (VStr field) /\
    validation_metric_of config = Some (VStr metric) /\
    metrics_of_field (output_features_of config) field = Some names /\
    In metric names.

Definition violates_metrics_invariant (config : dict) : Prop :=
  ~ field_known config \/ ~ metric_registered config.

(** The exception names the field or the metric of the trainer section. *)
Definition names_offender (e : exn) (config : dict) : Prop :=
  exists v,
    (validation_field_of config = Some v \/
     validation_metric_of config = Some v) /\
    mentions e v.

(** The check raises exactly on a violation of its invariant, and what it
    raises names the offending value. *)
Definition metrics_check_claim (config : dict) : Prop :=
  ((exists e, check_validation_metrics_are_valid config = inl e) <->
   violates_metrics_invariant config) /\
  (forall e,
     check_validation_metrics_are_valid config = inl e ->
     names_offender e config).

(** A violation makes the check raise a [ConfigValidationError]. *)
Definition error_class_claim (config : dict) : Prop :=
  violates_metrics_invariant config ->
  exists e,
    check_validation_metrics_are_valid config = inl e /\
    exn_class e = "ConfigValidationError".

End Registry.

End Spec.

(** ** [ludwig/schema/__init__.py]: the deprecated entry point *)

Module SchemaEntry.
Import Py Constants Schema Validations.

Section Env.

Variable env : collaborators.

(** [validate_config(config)] of [ludwig.schema], kept for callers of the old
    import path: the splitter is built and asked first, the structural
    validation follows under the lock, and no check of the battery runs.
    The lock is the [VALIDATION_LOCK] of [ludwig.schema], an object of its
    own; the trace records its acquisition and release with the same two
    events. *)
Definition validate_config (config : dict) : M unit :=
  updated_config <-
    call (CallUpgrade config)
         (upgrade_config_dict_to_latest_version env config) ;;
  let model_type := dict_get updated_config MODEL_TYPE (VStr MODEL_ECD) in
  split_options <-
    lift (get (dict_get updated_config PREPROCESSING (VDict []))
              SPLIT (VDict [])) ;;
  kwargs <-
    lift (match split_options with
          | VDict kwargs => ret kwargs
          | _ => raise TypeError
          end) ;;
  splitter <- call (CallGetSplitter kwargs) (get_splitter env kwargs) ;;
  call (CallSplitterValidate updated_config)
       (splitter_validate env splitter updated_config) ;;
  with_lock
    (schema <- call (CallGetSchema model_type)
                    (get_schema (providers env) model_type) ;;
     cls <- call CallGetValidator (ret get_validator) ;;
     call (CallValidate updated_config schema)
          (validate env updated_config schema cls)).

End Env.

End SchemaEntry.

(** ** Specification-side definitions for the further properties *)

Module SpecMore.
Import Py Constants Schema Validations Spec.

(** The keyword arguments [validate_config] hands to [get_splitter]:
    [updated_config.get(PREPROCESSING, {}).get(SPLIT, {})], unpacked. *)
Definition split_kwargs (updated_config : dict) : result dict :=
  split_options <-
    get (dict_get updated_config PREPROCESSING (VDict [])) SPLIT (VDict []) ;;
  match split_options with
  | VDict kwargs => ret kwargs
  | _ => raise TypeError
  end.

(** The lock is taken and released in turn and is free at the end; the
    schema, the validator and the structural validation are only used while
    it is held, everything else only while it is free. *)
Fixpoint lock_discipline (held : bool) (tr : list event) : bool :=
  match tr with
  | [] => negb held
  | LockAcquire :: tr' => negb held && lock_discipline true tr'
  | LockRelease :: tr' => held && lock_discipline false tr'
  | CallGetSchema _ :: tr' => held && lock_discipline held tr'
  | CallGetValidator :: tr' => held && lock_discipline held tr'
  | CallValidate _ _ :: tr' => held && lock_discipline held tr'
  | _ :: tr' => negb held && lock_discipline held tr'
  end.

(** The names of a list that are not in [seen], each once, in the order of
    their first occurrence. *)
Fixpoint first_occurrences (seen names : list string) : list string :=
  match names with
  | [] => []
  | name :: rest =>
      if existsb (String.eqb name) seen then first_occurrences seen rest
      else name :: first_occurrences (seen ++ [name]) rest
  end.

(** The names of the output features, in the order of the list. *)
Definition names_of (features : list value) : list string :=
  flat_map
    (fun feature =>
       match feature_name feature with
       | Some name => [name]
       | None => []
       end)
    features.

(** What the loop of [get_feature_to_metric_names_map] raises at a feature
    (a mapping with string name and type) it cannot process: the missing
    key, or the unregistered type. *)
Definition feature_failure (registry : string -> option (list string))
    (feature : value) : option exn :=
  match feature_entry feature NAME with
  | None => Some (KeyError (VStr NAME))
  | Some _ =>
      match feature_entry feature TYPE with
      | None => Some (KeyError (VStr TYPE))
      | Some (VStr type) =>
          match registry type with
          | None => Some (KeyError (VStr type))
          | Some _ => None
          end
      | Some _ => None
      end
  end.

(** The failure of the first feature that has one. *)
Fixpoint first_failure (registry : string -> option (list string))
    (features : list value) : option exn :=
  match features with
  | [] => None
  | feature :: rest =>
      match feature_failure registry feature with
      | Some e => Some e
      | None => first_failure registry rest
      end
  end.

End SpecMore.

(** ** Further sample collaborators *)

Module SamplesMore.
Import Py Constants Schema Validations Samples.

(** A structural validation that refuses everything. *)
Definition refusing : collaborators :=
  {| providers := empty_fragments;
     upgrade_config_dict_to_latest_version := fun config => inr config;
     validate := fun _ _ _ =>
       inl (ForeignError "ValidationError" "refused");
     splitter := unit;
     get_splitter := fun _ => inr tt;
     splitter_validate := fun _ _ => inr tt |}.

(** A splitter that refuses everything, behind a structural validation that
    does too. *)
Definition refusing_both : collaborators :=
  {| providers := empty_fragments;
     upgrade_config_dict_to_latest_version := fun config => inr config;
     validate := fun _ _ _ =>
       inl (ForeignError "ValidationError" "refused");
     splitter := unit;
     get_splitter := fun _ => inr tt;
     splitter_validate := fun _ _ =>
       inl (ForeignError "ValueError" "bad split") |}.

(** A configuration whose model type is a list. *)
Definition config_list_model_type : dict :=
  (MODEL_TYPE, VList [VStr "ecd"]) :: plain_config.

(** A configuration whose preprocessing section is a list. *)
Definition config_list_preprocessing : dict :=
  (PREPROCESSING, VList []) :: plain_config.

(** A configuration whose split section is a string. *)
Definition config_string_split : dict :=
  (PREPROCESSING, VDict [(SPLIT, VStr "random")]) :: plain_config.

(** A configuration with split options. *)
Definition config_with_split : dict :=
  (PREPROCESSING, VDict [(SPLIT, VDict [("type", VStr "random")])])
  :: plain_config.


(** A list as validation field. *)
Definition config_list_field : dict :=
  config_of [feature "y" "category"]
    (VDict [ ("validation_field", VList [VStr "y"]);
             ("validation_metric", VStr "loss") ]).

(** The second output feature has no type, the third an unknown one. *)
Definition config_two_bad_features : dict :=
  config_of [ feature "a" "binary";
              VDict [(NAME, VStr "b")];
              feature "c" "bogus" ]
            (trainer_on "a" "loss").

End SamplesMore.

(** * Properties *)

(** ** Generic list facts used by the counting arguments *)

Section ListFacts.
Context {A : Type}.

Lemma filter_length_lt (f : A -> bool) (a : A) (l : list A) :
  In a l -> f a = false -> (length (filter f l) < length l)%nat.
Proof.
  induction l as [|x l IH]; simpl; [tauto|].
  intros [->|Hin] Hf.
  - rewrite Hf. pose proof (filter_length_le f l). lia.
  - specialize (IH Hin Hf). destruct (f x); simpl; lia.
Qed.

Lemma filter_length_mono (f g : A -> bool) (l : list A) :
  (forall x, In x l -> f x = true -> g x = true) ->
  (length (filter f l) <= length (filter g l))%nat.
Proof.
  induction l as [|x l IH]; simpl; intros Himp; [lia|].
  assert (IH' : (length (filter f l) <= length (filter g l))%nat)
    by (apply IH; intros y Hy; apply Himp; now right).
  destruct (f x) eqn:Ef.
  - rewrite (Himp x (or_introl eq_refl) Ef). simpl. lia.
  - destruct (g x); simpl; lia.
Qed.

Lemma filter_length_strict (f g : A -> bool) (a : A) (l : list A) :
  (forall x, In x l -> f x = true -> g x = true) ->
  In a l -> f a = false -> g a = true ->
  (length (filter f l) < length (filter g l))%nat.
Proof.
  induction l as [|x l IH]; simpl; intros Himp Hin Hf Hg; [tauto|].
  assert (Himp' : forall y, In y l -> f y = true -> g y = true)
    by (intros y Hy; apply Himp; now right).
  destruct Hin as [->|Hin].
  - rewrite Hf, Hg. simpl.
    pose proof (filter_length_mono f g l Himp'). lia.
  - specialize (IH Himp' Hin Hf Hg).
    destruct (f x) eqn:Ef.
    + rewrite (Himp x (or_introl eq_refl) Ef). simpl. lia.
    + destruct (g x); simpl; lia.
Qed.

Lemma NoDup_map_inj_on {B : Type} (g : A -> B) (l : list A) :
  NoDup l ->
  (forall x y, In x l -> In y l -> g x = g y -> x = y) ->
  NoDup (map g l).
Proof.
  induction 1 as [|x l Hx Hnd IH]; simpl; intros Hinj; constructor.
  - rewrite in_map_iff. intros (y & Hxy & Hy).
    apply Hx. rewrite (Hinj x y); auto.
  - apply IH. intros a b Ha Hb. apply Hinj; now right.
Qed.
Lemma NoDup_map_filter {B : Type} (g : A -> B) (p : A -> bool) (l : list A) :
  NoDup (map g l) -> NoDup (map g (filter p l)).
Proof.
  induction l as [|x l IH]; simpl; intros Hnd; [constructor|].
  inversion Hnd as [|? ? Hx Hl]; subst.
  destruct (p x); simpl; [constructor|]; auto.
  rewrite in_map_iff in *. intros (y & Hxy & Hy).
  apply Hx. exists y. split; [assumption|].
  apply filter_In in Hy. tauto.
Qed.

Lemma NoDup_map_eq {B : Type} (g : A -> B) (l : list A) (x y : A) :
  NoDup (map g l) -> In x l -> In y l -> g x = g y -> x = y.
Proof.
  induction l as [|a l IH]; simpl; intros Hnd Hx Hy Heq; [tauto|].
  inversion Hnd as [|? ? Ha Hl]; subst.
  destruct Hx as [->|Hx], Hy as [->|Hy]; auto.
  - exfalso. apply Ha. rewrite Heq. now apply in_map.
  - exfalso. apply Ha. rewrite <- Heq. now apply in_map.
Qed.

End ListFacts.

Module DdpFacts.
Import Ddp.

Lemma fold_count_step rank host output ls lr :
  fold_left (count_step rank host) output (ls, lr) =
  (ls + Z.of_nat (host_count host output),
   lr + Z.of_nat (lower_count rank host output)).
Proof.
  revert ls lr.
  induction output as [|[r h] output IH]; intros ls lr; cbn [fold_left].
  - unfold host_count, lower_count; simpl. f_equal; lia.
  - destruct (count_step rank host (ls, lr) (r, h)) as [ls' lr'] eqn:Estep.
    rewrite IH. unfold host_count, lower_count, on_host, below.
    cbn [filter snd fst]. unfold count_step in Estep.
    destruct (h =? host)%string; [destruct (r <? rank) eqn:Er|];
      injection Estep as <- <-; cbn [filter length fst]; rewrite ?Er;
      cbn [length]; f_equal; lia.
Qed.

Lemma local_rank_and_size_eq rank host output :
  local_rank_and_size rank host output =
  (Z.of_nat (lower_count rank host output),
   Z.of_nat (host_count host output)).
Proof.
  unfold local_rank_and_size. rewrite fold_count_step. reflexivity.
Qed.

Lemma on_host_true host entry : on_host host entry = true <-> snd entry = host.
Proof. unfold on_host. apply String.eqb_eq. Qed.

Lemma rank_among_lt workers entry :
  In entry workers -> (rank_among workers entry < length workers)%nat.
Proof.
  intros Hin. apply (filter_length_lt _ entry); [assumption|].
  unfold below. apply Z.ltb_irrefl.
Qed.

Lemma rank_among_strict workers x y :
  In x workers -> fst x < fst y ->
  (rank_among workers x < rank_among workers y)%nat.
Proof.
  intros Hx Hlt. apply (filter_length_strict _ _ x); try assumption.
  - unfold below. intros z _ Hz. apply Z.ltb_lt in Hz. apply Z.ltb_lt. lia.
  - unfold below. apply Z.ltb_irrefl.
  - unfold below. now apply Z.ltb_lt.
Qed.

Lemma rank_among_inj workers x y :
  NoDup (map fst workers) -> In x workers -> In y workers ->
  rank_among workers x = rank_among workers y -> x = y.
Proof.
  intros Hnd Hx Hy Heq.
  apply (NoDup_map_eq fst workers); try assumption.
  destruct (Z.lt_trichotomy (fst x) (fst y)) as [Hlt|[Heq'|Hgt]];
    [|assumption|].
  - pose proof (rank_among_strict workers x y Hx Hlt). lia.
  - pose proof (rank_among_strict workers y x Hy Hgt). lia.
Qed.

Lemma rank_among_dense workers :
  NoDup (map fst workers) ->
  Permutation (map (rank_among workers) workers) (seq 0 (length workers)).
Proof.
  intros Hnd. apply NoDup_Permutation_bis.
  - apply NoDup_map_inj_on.
    + now apply NoDup_map_inv in Hnd.
    + intros x y Hx Hy. now apply rank_among_inj.
  - rewrite length_seq, length_map. lia.
  - intros n Hn. apply in_map_iff in Hn as (x & <- & Hx).
    apply in_seq. pose proof (rank_among_lt workers x Hx). lia.
Qed.

Lemma DDPStrategy_init_fields rank host output :
  (local_rank (DDPStrategy_init rank host output),
   local_size (DDPStrategy_init rank host output)) =
  local_rank_and_size rank host output.
Proof.
  unfold DDPStrategy_init.
  now destruct (local_rank_and_size rank host output).
Qed.

(** C5: whenever the gathered list contains the caller's own pair,
    [local_rank_and_size] returns as local size the number of entries that
    share the caller's host and as local rank the number of those whose
    global rank is strictly below the caller's; in the group with H1 at
    ranks 0, 2, 4 and H2 at ranks 1, 3 the workers of H1 get size 3 and
    ranks 0, 1, 2 and those of H2 get size 2 and ranks 0, 1. *)
Theorem local_rank_and_size_counts :
  (forall rank host output,
     In (rank, host) output ->
     local_rank_and_size rank host output =
     (Z.of_nat (lower_count rank host output),
      Z.of_nat (host_count host output))) /\
  map (fun entry =>
         (fst entry,
          local_rank_and_size (fst entry) (snd entry)
            (all_gather_object example_hosts)))
      (all_gather_object example_hosts) =
  [ (0, (0, 3)); (1, (0, 2)); (2, (1, 3)); (3, (1, 2)); (4, (2, 3)) ].
Proof.
  split; [|reflexivity].
  intros rank host output _. apply local_rank_and_size_eq.
Qed.

Lemma local_rank_and_size_counts_witness :
  In (2, "H1") (all_gather_object example_hosts) /\
  local_rank_and_size 2 "H1" (all_gather_object example_hosts) =
  (Z.of_nat (lower_count 2 "H1" (all_gather_object example_hosts)),
   Z.of_nat (host_count "H1" (all_gather_object example_hosts))).
Proof.
  assert (Hin : In (2, "H1") (all_gather_object example_hosts))
    by (simpl; tauto).
  split; [exact Hin|].
  exact (proj1 local_rank_and_size_counts 2 "H1" _ Hin).
Defined.

(** C6: when the global ranks in the gathered list are pairwise distinct and
    every worker runs [local_rank_and_size] on that same list, the local
    ranks computed by the workers of any one host are, up to order, exactly
    0, 1, ..., local_size - 1, and each of them computes the same local
    size. *)
Theorem local_ranks_dense (output : gathered) (host : string) :
  NoDup (map fst output) ->
  let workers := filter (on_host host) output in
  Permutation
    (map (fun entry =>
            fst (local_rank_and_size (fst entry) (snd entry) output))
         workers)
    (map Z.of_nat (seq 0 (length workers))) /\
  Forall (fun entry =>
            snd (local_rank_and_size (fst entry) (snd entry) output) =
            Z.of_nat (length workers))
         workers.
Proof.
  intros Hnd workers.
  assert (Hhost : forall entry, In entry workers -> snd entry = host).
  { intros entry Hin. apply filter_In in Hin. now apply on_host_true. }
  split.
  - rewrite (map_ext_in _ (fun entry => Z.of_nat (rank_among workers entry))).
    + rewrite <- (map_map (rank_among workers) Z.of_nat).
      apply Permutation_map, rank_among_dense.
      now apply NoDup_map_filter.
    + intros entry Hin. rewrite local_rank_and_size_eq, (Hhost entry Hin).
      reflexivity.
  - apply Forall_forall. intros entry Hin.
    rewrite local_rank_and_size_eq, (Hhost entry Hin). reflexivity.
Qed.

Lemma local_ranks_dense_witness :
  NoDup (map fst (all_gather_object example_hosts)) /\
  Permutation
    (map (fun entry =>
            fst (local_rank_and_size (fst entry) (snd entry)
                   (all_gather_object example_hosts)))
         (filter (on_host "H1") (all_gather_object example_hosts)))
    (map Z.of_nat
       (seq 0 (length (filter (on_host "H1")
                         (all_gather_object example_hosts))))).
Proof.
  assert (Hnd : NoDup (map fst (all_gather_object example_hosts))).
  { simpl. repeat constructor; simpl; intuition discriminate. }
  split; [exact Hnd|].
  exact (proj1 (local_ranks_dense _ "H1" Hnd)).
Defined.

End DdpFacts.

(** ** The metric map and the validation-metric check *)

Module MetricsFacts.
Import Py Constants Schema Validations Spec.

Section Registry.

Variable output_type_registry : string -> option (list string).

Local Abbreviation feature_metrics := (feature_metrics output_type_registry).
Local Abbreviation well_formed := (well_formed output_type_registry).
Local Abbreviation build := (build output_type_registry).
Local Abbreviation full_map := (full_map output_type_registry).
Local Abbreviation last_metrics := (last_metrics output_type_registry).
Local Abbreviation metrics_of_field :=
  (metrics_of_field output_type_registry).

Lemma key_eqb_str (k : value) (s : string) :
  key_eqb k (VStr s) = true -> k = VStr s.
Proof.
  destruct k; simpl; try discriminate.
  intros H. apply String.eqb_eq in H. now subst.
Qed.

Lemma map_lookup_insert (m : metrics_map) (s s' : string) (v : list string) :
  map_lookup (map_insert m (VStr s) v) (VStr s') =
  if (s =? s')%string then Some v else map_lookup m (VStr s').
Proof.
  induction m as [|[k0 v0] m IH]; simpl.
  - reflexivity.
  - destruct (key_eqb k0 (VStr s)) eqn:Ek; simpl.
    + apply key_eqb_str in Ek. subst k0. simpl.
      destruct (s =? s')%string; reflexivity.
    + rewrite IH. destruct (s =? s')%string eqn:Es; [|reflexivity].
      apply String.eqb_eq in Es. subst s'. now rewrite Ek.
Qed.

Lemma feature_metrics_entries feature name metric_functions :
  feature_metrics feature = Some (name, metric_functions) ->
  exists d type,
    feature = VDict d /\ dict_lookup d NAME = Some (VStr name) /\
    dict_lookup d TYPE = Some (VStr type) /\
    output_type_registry type = Some metric_functions.
Proof.
  unfold feature_metrics, feature_name, feature_type, feature_entry.
  destruct feature as [| | | | |d]; try discriminate.
  destruct (dict_lookup d NAME) as [[| | |n| |]|] eqn:En; try discriminate.
  destruct (dict_lookup d TYPE) as [[| | |t| |]|] eqn:Ety; try discriminate.
  destruct (output_type_registry t) as [ms|] eqn:Et; try discriminate.
  intros H. injection H as <- <-. exists d, t. auto.
Qed.

Lemma build_cons (feature : value) (rest : list value) (m : metrics_map) :
  build (feature :: rest) m =
  build rest
    match feature_metrics feature with
    | Some (name, metric_functions) =>
        map_insert m (VStr name) metric_functions
    | None => m
    end.
Proof. reflexivity. Qed.

Lemma collect_ok (features : list value) (m : metrics_map) :
  forallb well_formed features = true ->
  collect_metric_names output_type_registry features m =
  inr (build features m).
Proof.
  revert m. induction features as [|feature rest IH]; intros m Hwf.
  - reflexivity.
  - simpl in Hwf. apply andb_true_iff in Hwf as [Hf Hrest].
    unfold well_formed in Hf.
    destruct (feature_metrics feature) as [[name ms]|] eqn:Efm;
      [|discriminate].
    rewrite build_cons, Efm.
    destruct (feature_metrics_entries _ _ _ Efm)
      as (d & type & -> & Hname & Htype & Hreg).
    cbn [collect_metric_names getitem]. unfold dict_getitem.
    rewrite Hname, Htype. cbn. rewrite Hreg. cbn.
    apply IH, Hrest.
Qed.

Lemma get_map_ok (features : list value) :
  forallb well_formed features = true ->
  get_feature_to_metric_names_map output_type_registry (VList features) =
  inr (full_map features).
Proof.
  intros Hwf. unfold get_feature_to_metric_names_map. cbn.
  rewrite (collect_ok _ _ Hwf). reflexivity.
Qed.

Lemma lookup_build (features : list value) (m : metrics_map) (name : string) :
  map_lookup (build features m) (VStr name) =
  match last_metrics features name with
  | Some metric_functions => Some metric_functions
  | None => map_lookup m (VStr name)
  end.
Proof.
  revert m. induction features as [|feature rest IH]; intros m.
  - reflexivity.
  - rewrite build_cons, IH. cbn [Spec.last_metrics].
    destruct (last_metrics rest name); [reflexivity|].
    destruct (feature_metrics feature) as [[name' ms]|]; [|reflexivity].
    rewrite map_lookup_insert. now destruct (name' =? name)%string.
Qed.

Lemma lookup_full_map (features : list value) (field : string) :
  map_lookup (full_map features) (VStr field) =
  metrics_of_field features field.
Proof.
  unfold full_map, metrics_of_field. rewrite map_lookup_insert.
  destruct (COMBINED =? field)%string; [reflexivity|].
  rewrite lookup_build. now destruct (last_metrics features field).
Qed.

End Registry.

End MetricsFacts.

(** ** The validation pipeline *)

Module PipelineFacts.
Import Py Constants Schema Validations Spec.

Section Pipeline.

Variable output_type_registry : string -> option (list string).
Variable env : collaborators.

Local Abbreviation validate_config :=
  (validate_config output_type_registry env).

(** An exception leaves a sequence at once: what follows does not run. *)
Lemma bind_raises {A B} (m : M A) (k : A -> M B) tr e tr' :
  m tr = (inl e, tr') -> bind m k tr = (inl e, tr').
Proof. intros H. cbn. now rewrite H. Qed.

Lemma run_structural (config : dict) :
  run (validate_config config false) =
  match upgrade_config_dict_to_latest_version env config with
  | inl e => (inl e, [CallUpgrade config])
  | inr updated_config =>
      match get_schema (providers env) (model_type_of updated_config) with
      | inl e =>
          (inl e,
           [ CallUpgrade config; LockAcquire;
             CallGetSchema (model_type_of updated_config); LockRelease ])
      | inr schema =>
          (validate env updated_config schema get_validator,
           structural_trace config updated_config schema)
      end
  end.
Proof.
  unfold run, Validations.validate_config, call, with_lock, emit, lift,
    model_type_of, structural_trace.
  cbn.
  destruct (upgrade_config_dict_to_latest_version env config)
    as [e|updated_config]; [reflexivity|].
  cbn.
  destruct (get_schema (providers env) _) as [e|schema]; [reflexivity|].
  cbn.
  destruct (validate env updated_config schema get_validator) as [e|[]];
    reflexivity.
Qed.

Lemma run_auxiliary (config updated_config : dict) (schema : value)
    (kwargs : dict) (s : splitter env) :
  upgrade_config_dict_to_latest_version env config = inr updated_config ->
  get_schema (providers env) (model_type_of updated_config) = inr schema ->
  validate env updated_config schema get_validator = inr tt ->
  get (dict_get updated_config PREPROCESSING (VDict [])) SPLIT (VDict []) =
    inr (VDict kwargs) ->
  get_splitter env kwargs = inr s ->
  splitter_validate env s updated_config = inr tt ->
  run (validate_config config true) =
  match check_validation_metrics_are_valid output_type_registry
          updated_config with
  | inl e =>
      (inl e,
       structural_trace config updated_config schema
       ++ splitter_trace updated_config kwargs
       ++ [CallCheck ValidationMetricsAreValid updated_config])
  | inr _ =>
      (inr tt,
       structural_trace config updated_config schema
       ++ splitter_trace updated_config kwargs
       ++ map (fun c => CallCheck c updated_config) battery)
  end.
Proof.
  intros Hup Hschema Hvalid Hsplit Hget Hsv.
  unfold run, Validations.validate_config, run_check, call, with_lock, emit,
    lift, model_type_of, structural_trace, splitter_trace in *.
  cbn. rewrite Hup. cbn. rewrite Hschema. cbn. rewrite Hvalid. cbn.
  rewrite Hsplit. cbn. rewrite Hget. cbn. rewrite Hsv. cbn.
  destruct (check_validation_metrics_are_valid output_type_registry
              updated_config) as [e|[]];
    reflexivity.
Qed.

Lemma validate_config_outcome (config updated_config : dict) (schema : value)
    (kwargs : dict) (s : splitter env) :
  upgrade_config_dict_to_latest_version env config = inr updated_config ->
  get_schema (providers env) (model_type_of updated_config) = inr schema ->
  validate env updated_config schema get_validator = inr tt ->
  get (dict_get updated_config PREPROCESSING (VDict [])) SPLIT (VDict []) =
    inr (VDict kwargs) ->
  get_splitter env kwargs = inr s ->
  splitter_validate env s updated_config = inr tt ->
  fst (run (validate_config config true)) =
  check_validation_metrics_are_valid output_type_registry updated_config.
Proof.
  intros Hup Hschema Hvalid Hsplit Hget Hsv.
  rewrite (run_auxiliary config updated_config schema kwargs s)
    by assumption.
  destruct (check_validation_metrics_are_valid output_type_registry
              updated_config) as [e|[]]; reflexivity.
Qed.

(** C7: with [include_auxiliary_validations=False], [validate_config] only
    upgrades the configuration, determines the model type (["ecd"] when the
    upgraded configuration has none) and validates the structure under the
    lock; no splitter is built or asked and no check of the battery runs. *)
Theorem structural_validation_only (config : dict) :
  run (validate_config config false) =
  match upgrade_config_dict_to_latest_version env config with
  | inl e => (inl e, [CallUpgrade config])
  | inr updated_config =>
      match get_schema (providers env) (model_type_of updated_config) with
      | inl e =>
          (inl e,
           [ CallUpgrade config; LockAcquire;
             CallGetSchema (model_type_of updated_config); LockRelease ])
      | inr schema =>
          (validate env updated_config schema get_validator,
           structural_trace config updated_config schema)
      end
  end /\
  Forall (fun ev => auxiliary ev = false)
         (snd (run (validate_config config false))) /\
  (forall updated_config,
     upgrade_config_dict_to_latest_version env config = inr updated_config ->
     dict_lookup updated_config MODEL_TYPE = None ->
     In (CallGetSchema (VStr "ecd"))
        (snd (run (validate_config config false)))).
Proof.
  split; [apply run_structural|]. rewrite run_structural. split.
  - destruct (upgrade_config_dict_to_latest_version env config)
      as [e|updated_config]; [repeat constructor|].
    destruct (get_schema (providers env) (model_type_of updated_config))
      as [e|schema]; repeat constructor.
  - intros updated_config Hup Hnone. rewrite Hup.
    assert (Hmt : model_type_of updated_config = VStr "ecd")
      by (unfold model_type_of, dict_get; now rewrite Hnone).
    unfold structural_trace. rewrite Hmt.
    destruct (get_schema (providers env) (VStr "ecd")); simpl; tauto.
Qed.

(** C8: with the auxiliary validations on, and once the upgrade, the
    structural validation and the splitter have gone through,
    [check_validation_metrics_are_valid] runs first; if it raises, its
    exception is the outcome of the call and no other check runs; otherwise
    all sixteen checks run, each on the upgraded configuration, in the order
    of the table of the battery. *)
Theorem checks_run_in_order_fail_fast (config updated_config : dict)
    (schema : value) (kwargs : dict) (s : splitter env) :
  upgrade_config_dict_to_latest_version env config = inr updated_config ->
  get_schema (providers env) (model_type_of updated_config) = inr schema ->
  validate env updated_config schema get_validator = inr tt ->
  get (dict_get updated_config PREPROCESSING (VDict [])) SPLIT (VDict []) =
    inr (VDict kwargs) ->
  get_splitter env kwargs = inr s ->
  splitter_validate env s updated_config = inr tt ->
  run (validate_config config true) =
  match check_validation_metrics_are_valid output_type_registry
          updated_config with
  | inl e =>
      (inl e,
       structural_trace config updated_config schema
       ++ splitter_trace updated_config kwargs
       ++ [CallCheck ValidationMetricsAreValid updated_config])
  | inr _ =>
      (inr tt,
       structural_trace config updated_config schema
       ++ splitter_trace updated_config kwargs
       ++ map (fun c => CallCheck c updated_config) battery)
  end.
Proof. apply run_auxiliary. Qed.

End Pipeline.

Import Samples.

Lemma structural_validation_only_witness :
  In (CallGetSchema (VStr "ecd"))
     (snd (run (validate_config sample_registry permissive plain_config
                  false))).
Proof.
  exact (proj2 (proj2 (structural_validation_only sample_registry permissive
                         plain_config))
           plain_config eq_refl eq_refl).
Defined.

Lemma checks_run_in_order_fail_fast_witness :
  run (validate_config sample_registry permissive config_unknown_field true) =
  match check_validation_metrics_are_valid sample_registry
          config_unknown_field with
  | inl e =>
      (inl e,
       structural_trace config_unknown_field config_unknown_field
         (VDict
            [ ("type", VStr "object");
              ("properties",
               VDict
                 [ (MODEL_TYPE, VDict []); (INPUT_FEATURES, VDict []);
                   (OUTPUT_FEATURES, VDict []); (COMBINER, VDict []);
                   (TRAINER, VDict []); (PREPROCESSING, VDict []);
                   (HYPEROPT, VDict []); (DEFAULTS, VDict []) ]);
              ("definitions", VDict []);
              ("required", VList [VStr INPUT_FEATURES; VStr OUTPUT_FEATURES]) ])
       ++ splitter_trace config_unknown_field []
       ++ [CallCheck ValidationMetricsAreValid config_unknown_field])
  | inr _ =>
      (inr tt,
       structural_trace config_unknown_field config_unknown_field
         (VDict
            [ ("type", VStr "object");
              ("properties",
               VDict
                 [ (MODEL_TYPE, VDict []); (INPUT_FEATURES, VDict []);
                   (OUTPUT_FEATURES, VDict []); (COMBINER, VDict []);
                   (TRAINER, VDict []); (PREPROCESSING, VDict []);
                   (HYPEROPT, VDict []); (DEFAULTS, VDict []) ]);
              ("definitions", VDict []);
              ("required", VList [VStr INPUT_FEATURES; VStr OUTPUT_FEATURES]) ])
       ++ splitter_trace config_unknown_field []
       ++ map (fun c => CallCheck c config_unknown_field) battery)
  end.
Proof.
  exact (checks_run_in_order_fail_fast sample_registry permissive
           config_unknown_field config_unknown_field _ [] tt
           eq_refl eq_refl eq_refl eq_refl eq_refl eq_refl).
Defined.

End PipelineFacts.

(** ** What the validation-metric check accepts and how it fails *)

Module MetricsCheck.
Import Py Constants Schema Validations Spec MetricsFacts PipelineFacts.

Section Registry.

Variable output_type_registry : string -> option (list string).

Local Abbreviation check_validation_metrics_are_valid :=
  (check_validation_metrics_are_valid output_type_registry).
Local Abbreviation well_formed := (well_formed output_type_registry).
Local Abbreviation full_map := (full_map output_type_registry).
Local Abbreviation metrics_of_field :=
  (metrics_of_field output_type_registry).
Local Abbreviation metric_registered :=
  (metric_registered output_type_registry).
Local Abbreviation violates_metrics_invariant :=
  (violates_metrics_invariant output_type_registry).
Local Abbreviation metrics_check_claim :=
  (metrics_check_claim output_type_registry).

Lemma check_unfold (config : dict) :
  check_validation_metrics_are_valid config =
  match dict_lookup config OUTPUT_FEATURES with
  | None => inl (KeyError (VStr OUTPUT_FEATURES))
  | Some output_features =>
      match get_feature_to_metric_names_map output_type_registry
              output_features with
      | inl e => inl e
      | inr m =>
          match dict_lookup config TRAINER with
          | None => inl (KeyError (VStr TRAINER))
          | Some trainer =>
              match getitem trainer "validation_field" with
              | inl e => inl e
              | inr field =>
                  match getitem trainer "validation_metric" with
                  | inl e => inl e
                  | inr metric => check_fields m field metric
                  end
              end
          end
      end
  end.
Proof.
  unfold Validations.check_validation_metrics_are_valid, check_fields,
    field_error, metric_error, dict_getitem.
  destruct (dict_lookup config OUTPUT_FEATURES) as [ofs|]; [|reflexivity].
  cbn [bind ret Monad_result].
  destruct (get_feature_to_metric_names_map output_type_registry ofs)
    as [e|m]; [reflexivity|].
  destruct (dict_lookup config TRAINER) as [trainer|]; [|reflexivity].
  cbn [bind ret Monad_result].
  destruct (getitem trainer "validation_field") as [e|field];
    [reflexivity|].
  destruct (getitem trainer "validation_metric") as [e|metric]; reflexivity.
Qed.

Lemma collect_err (features : list value) (m : metrics_map) :
  forallb feature_typed features = true ->
  forallb well_formed features = false ->
  exists key,
    collect_metric_names output_type_registry features m = inl (KeyError key).
Proof.
  revert m. induction features as [|feature rest IH]; intros m Hty Hwf.
  - discriminate.
  - simpl in Hty. apply andb_true_iff in Hty as [Hf Hrest].
    simpl in Hwf. unfold feature_typed in Hf.
    destruct feature as [| | | | |d]; try discriminate.
    apply andb_true_iff in Hf as [Hn Ht].
    unfold Spec.well_formed, feature_metrics, feature_name,
      feature_type, feature_entry in Hwf.
    cbn [collect_metric_names getitem]. unfold dict_getitem.
    destruct (dict_lookup d NAME) as [[| | |name| |]|]; try discriminate;
      [|eexists; reflexivity].
    destruct (dict_lookup d TYPE) as [[| | |type| |]|]; try discriminate;
      [|eexists; reflexivity].
    cbn. destruct (output_type_registry type) as [ms|];
      [|eexists; reflexivity].
    cbn. apply IH; assumption.
Qed.

Lemma lookup_error_builtin (e : exn) : lookup_error e -> builtin e.
Proof. now destruct e. Qed.

Lemma getitem_lookup_error (v : value) (key : string) (e : exn) :
  getitem v key = inl e -> lookup_error e.
Proof.
  unfold getitem, dict_getitem.
  destruct v as [| | | | |d]; try (intros H; injection H as <-; exact I).
  destruct (dict_lookup d key);
    [discriminate|intros H; injection H as <-; exact I].
Qed.

Lemma collect_lookup_error (features : list value) (m : metrics_map)
    (e : exn) :
  collect_metric_names output_type_registry features m = inl e ->
  lookup_error e.
Proof.
  revert m. induction features as [|feature rest IH]; intros m.
  - discriminate.
  - cbn [collect_metric_names].
    destruct (getitem feature NAME) as [e0|name] eqn:En.
    + intros H; injection H as <-. exact (getitem_lookup_error _ _ _ En).
    + destruct (getitem feature TYPE) as [e0|type] eqn:Et.
      * intros H; injection H as <-. exact (getitem_lookup_error _ _ _ Et).
      * cbn [bind Monad_result]. unfold registry_getitem.
        destruct (hashable type); [|intros H; injection H as <-; exact I].
        destruct type as [| | |t| |];
          try (intros H; injection H as <-; exact I).
        destruct (output_type_registry t) as [ms|];
          [|intros H; injection H as <-; exact I].
        cbn [bind Monad_result ret]. unfold map_setitem.
        destruct (hashable name); [|intros H; injection H as <-; exact I].
        apply IH.
Qed.

Lemma get_map_lookup_error (output_features : value) (e : exn) :
  get_feature_to_metric_names_map output_type_registry output_features =
    inl e ->
  lookup_error e.
Proof.
  unfold get_feature_to_metric_names_map.
  destruct (iterate output_features) as [e0|features] eqn:Eit.
  - intros H; injection H as <-.
    destruct output_features; try discriminate; cbn in Eit;
      injection Eit as <-; exact I.
  - cbn [bind Monad_result].
    destruct (collect_metric_names output_type_registry features [])
      as [e0|m] eqn:Ec; [|discriminate].
    intros H; injection H as <-. exact (collect_lookup_error _ _ _ Ec).
Qed.

Lemma collect_entries (features : list value) (m m' : metrics_map) :
  collect_metric_names output_type_registry features m = inr m' ->
  forall feature,
    In feature features ->
    feature_entry feature NAME <> None /\ feature_entry feature TYPE <> None.
Proof.
  revert m. induction features as [|feature rest IH];
    intros m Hc f Hin; [destruct Hin|].
  cbn [collect_metric_names] in Hc. unfold getitem, dict_getitem in Hc.
  destruct feature as [| | | | |d]; try discriminate Hc.
  destruct (dict_lookup d NAME) as [name|] eqn:En; [|discriminate Hc].
  destruct (dict_lookup d TYPE) as [type|] eqn:Et; [|discriminate Hc].
  cbn [bind Monad_result] in Hc.
  destruct (registry_getitem output_type_registry type) as [e|ms];
    [discriminate Hc|].
  cbn [bind Monad_result] in Hc.
  destruct (map_setitem m name ms) as [e|m1]; [discriminate Hc|].
  cbn [bind Monad_result] in Hc.
  destruct Hin as [<-|Hin].
  - cbn [feature_entry]. rewrite En, Et. split; discriminate.
  - exact (IH m1 Hc f Hin).
Qed.

Lemma check_fields_builtin (m : metrics_map) (field metric : value) (e : exn) :
  check_fields m field metric = inl e -> builtin e.
Proof.
  unfold check_fields, map_contains, map_getitem, field_error, metric_error.
  destruct (hashable field); [|intros H; injection H as <-; exact I].
  cbn. destruct (map_lookup m field) as [names|]; cbn;
    [|intros H; injection H as <-; exact I].
  destruct (in_names metric names); cbn; [discriminate|].
  intros H; injection H as <-; exact I.
Qed.

Lemma check_builtin (config : dict) (e : exn) :
  check_validation_metrics_are_valid config = inl e -> builtin e.
Proof.
  rewrite check_unfold.
  destruct (dict_lookup config OUTPUT_FEATURES) as [ofs|];
    [|intros H; injection H as <-; exact I].
  destruct (get_feature_to_metric_names_map output_type_registry ofs)
    as [e'|m] eqn:Emap.
  - intros H; injection H as <-.
    exact (lookup_error_builtin _ (get_map_lookup_error _ _ Emap)).
  - destruct (dict_lookup config TRAINER) as [trainer|];
      [|intros H; injection H as <-; exact I].
    destruct (getitem trainer "validation_field") as [e0|field] eqn:Ef.
    + intros H; injection H as <-.
      exact (lookup_error_builtin _ (getitem_lookup_error _ _ _ Ef)).
    + destruct (getitem trainer "validation_metric") as [e0|metric] eqn:Em.
      * intros H; injection H as <-.
        exact (lookup_error_builtin _ (getitem_lookup_error _ _ _ Em)).
      * apply check_fields_builtin.
Qed.

Lemma check_fields_spec (features : list value) (field metric : string) :
  check_fields (full_map features) (VStr field) (VStr metric) =
  match metrics_of_field features field with
  | None => inl (field_error (VStr field) (full_map features))
  | Some names =>
      if existsb (String.eqb metric) names then inr tt
      else inl (metric_error (VStr metric) (VStr field) (full_map features))
  end.
Proof.
  unfold check_fields, map_contains, map_getitem. cbn [hashable].
  rewrite lookup_full_map.
  destruct (metrics_of_field features field) as [names|]; cbn;
    [|reflexivity].
  now destruct (existsb (String.eqb metric) names).
Qed.

Lemma trainer_entry_getitem (config : dict) (key : string) (v : value) :
  trainer_entry config key = Some v ->
  exists trainer,
    dict_lookup config TRAINER = Some trainer /\ getitem trainer key = inr v.
Proof.
  unfold trainer_entry.
  destruct (dict_lookup config TRAINER) as [[| | | | |d]|]; try discriminate.
  intros H. exists (VDict d). split; [reflexivity|].
  cbn. unfold dict_getitem. now rewrite H.
Qed.

Lemma check_spec (config : dict) (features : list value)
    (field metric : string) :
  dict_lookup config OUTPUT_FEATURES = Some (VList features) ->
  forallb well_formed features = true ->
  validation_field_of config = Some (VStr field) ->
  validation_metric_of config = Some (VStr metric) ->
  check_validation_metrics_are_valid config =
  match metrics_of_field features field with
  | None => inl (field_error (VStr field) (full_map features))
  | Some names =>
      if existsb (String.eqb metric) names then inr tt
      else inl (metric_error (VStr metric) (VStr field) (full_map features))
  end.
Proof.
  intros Hof Hwf Hfield Hmetric.
  rewrite check_unfold, Hof, (get_map_ok _ _ Hwf).
  destruct (trainer_entry_getitem _ _ _ Hfield) as (trainer & Ht & Hgf).
  destruct (trainer_entry_getitem _ _ _ Hmetric) as (trainer' & Ht' & Hgm).
  rewrite Ht in Ht'. injection Ht' as <-.
  rewrite Ht, Hgf, Hgm. apply check_fields_spec.
Qed.

Lemma existsb_eqb_In (x : string) (l : list string) :
  existsb (String.eqb x) l = true <-> In x l.
Proof.
  rewrite existsb_exists. split.
  - intros (y & Hy & Heq). apply String.eqb_eq in Heq. now subst.
  - intros Hin. exists x. split; [assumption|apply String.eqb_refl].
Qed.

Lemma last_metrics_known (features : list value) (name : string) :
  forallb well_formed features = true ->
  In (Some name) (map feature_name features) <->
  exists names, last_metrics output_type_registry features name = Some names.
Proof.
  induction features as [|feature rest IH]; intros Hwf.
  - simpl. split; [tauto|]. intros (names & H). discriminate.
  - simpl in Hwf. apply andb_true_iff in Hwf as [Hf Hrest].
    specialize (IH Hrest). cbn [map In last_metrics].
    unfold Spec.well_formed in Hf. unfold feature_metrics in *.
    destruct (feature_name feature) as [name'|]; [|discriminate].
    destruct (feature_type feature) as [type|]; [|discriminate].
    destruct (output_type_registry type) as [ms|]; [|discriminate].
    destruct (last_metrics output_type_registry rest name) as [ms'|].
    + split; [intros _; now exists ms'|]. intros _. right. apply IH.
      now exists ms'.
    + destruct (name' =? name)%string eqn:En.
      * apply String.eqb_eq in En. subst. split; [now exists ms|now left].
      * apply String.eqb_neq in En. split.
        -- intros [H|H]; [congruence|]. now apply IH.
        -- intros (names & H). discriminate.
Qed.

Lemma last_metrics_app (pre post : list value) (name : string) :
  last_metrics output_type_registry (pre ++ post) name =
  match last_metrics output_type_registry post name with
  | Some names => Some names
  | None => last_metrics output_type_registry pre name
  end.
Proof.
  induction pre as [|feature pre IH]; simpl.
  - now destruct (last_metrics output_type_registry post name).
  - rewrite IH.
    now destruct (last_metrics output_type_registry post name).
Qed.

Lemma last_metrics_absent (post : list value) (name : string) :
  (forall feature name' names,
     In feature post ->
     feature_metrics output_type_registry feature = Some (name', names) ->
     name' <> name) ->
  last_metrics output_type_registry post name = None.
Proof.
  induction post as [|feature post IH]; intros Hother; [reflexivity|].
  simpl. rewrite IH by (intros f n ms Hin; apply Hother; now right).
  destruct (feature_metrics output_type_registry feature)
    as [[name' names]|] eqn:Efm; [|reflexivity].
  destruct (name' =? name)%string eqn:En; [|reflexivity].
  apply String.eqb_eq in En.
  now destruct (Hother feature name' names (or_introl eq_refl) Efm).
Qed.

Lemma getitem_entry (config : dict) (trainer : value) (key : string)
    (v : value) :
  dict_lookup config TRAINER = Some trainer ->
  getitem trainer key = inr v ->
  trainer_entry config key = Some v.
Proof.
  intros Ht Hg. unfold trainer_entry. rewrite Ht.
  unfold getitem, dict_getitem in Hg.
  destruct trainer as [| | | | |d]; try discriminate Hg.
  destruct (dict_lookup d key); [now injection Hg as ->|discriminate Hg].
Qed.

Lemma missing_key_fails (config : dict) :
  lacks_required_key config ->
  exists e,
    check_validation_metrics_are_valid config = inl e /\ lookup_error e.
Proof.
  intros Hlack. rewrite check_unfold.
  destruct (dict_lookup config OUTPUT_FEATURES) as [ofs|] eqn:Eof;
    [|eexists; split; [reflexivity|exact I]].
  destruct (get_feature_to_metric_names_map output_type_registry ofs)
    as [e|m] eqn:Emap.
  { exists e. split; [reflexivity|]. exact (get_map_lookup_error _ _ Emap). }
  destruct (dict_lookup config TRAINER) as [trainer|] eqn:Et;
    [|eexists; split; [reflexivity|exact I]].
  destruct (getitem trainer "validation_field") as [e|field] eqn:Ef.
  { exists e. split; [reflexivity|].
    exact (getitem_lookup_error _ _ _ Ef). }
  destruct (getitem trainer "validation_metric") as [e|metric] eqn:Em.
  { exists e. split; [reflexivity|].
    exact (getitem_lookup_error _ _ _ Em). }
  exfalso.
  destruct Hlack as [H|[H|[H|(feature & Hin & Hmiss)]]].
  - congruence.
  - unfold validation_field_of in H.
    rewrite (getitem_entry _ _ _ _ Et Ef) in H. discriminate.
  - unfold validation_metric_of in H.
    rewrite (getitem_entry _ _ _ _ Et Em) in H. discriminate.
  - unfold output_features_of in Hin. rewrite Eof in Hin.
    destruct ofs as [| | | |features|]; try destruct Hin.
    unfold get_feature_to_metric_names_map in Emap.
    cbn [iterate bind Monad_result] in Emap.
    destruct (collect_metric_names output_type_registry features [])
      as [e|m0] eqn:Ec; [discriminate Emap|].
    destruct (collect_entries _ _ _ Ec feature Hin) as [Hn Hty].
    destruct Hmiss; contradiction.
Qed.

Lemma missing_key_typed (config : dict) :
  config_typed config = true ->
  lacks_required_key config ->
  exists key, check_validation_metrics_are_valid config = inl (KeyError key).
Proof.
  intros Hty Hlack. rewrite check_unfold.
  unfold config_typed in Hty. apply andb_true_iff in Hty as [Hof Htr].
  destruct (dict_lookup config OUTPUT_FEATURES) as [ofs|] eqn:Eof;
    [|eexists; reflexivity].
  cbn in Hof. destruct ofs as [| | | |features|]; try discriminate.
  cbn in Hof.
  destruct (forallb well_formed features) eqn:Ewf.
  - rewrite (get_map_ok _ _ Ewf).
    destruct (dict_lookup config TRAINER) as [trainer|] eqn:Et;
      [|eexists; reflexivity].
    cbn in Htr. destruct trainer as [| | | | |d]; try discriminate.
    cbn [getitem]. unfold dict_getitem.
    destruct (dict_lookup d "validation_field") as [field|] eqn:Evf;
      [|eexists; reflexivity].
    destruct (dict_lookup d "validation_metric") as [metric|] eqn:Evm;
      [|eexists; reflexivity].
    exfalso. unfold lacks_required_key, validation_field_of,
      validation_metric_of, trainer_entry, output_features_of in Hlack.
    rewrite Et, Eof, Evf, Evm in Hlack.
    destruct Hlack as [H|[H|[H|(feature & Hin & Hmiss)]]]; try discriminate.
    rewrite forallb_forall in Ewf. specialize (Ewf feature Hin).
    unfold Spec.well_formed, feature_metrics, feature_name,
      feature_type in Ewf.
    destruct Hmiss as [H|H]; rewrite H in Ewf; [discriminate|].
    destruct (feature_entry feature NAME) as [[| | |n| |]|]; discriminate.
  - unfold get_feature_to_metric_names_map. cbn [iterate bind Monad_result].
    destruct (collect_err features [] Hof Ewf) as [key Hkey].
    rewrite Hkey. now exists key.
Qed.

(** C9: the check is not total.  On every mapping that has no ["trainer"]
    key, or whose trainer has no ["validation_field"] or no
    ["validation_metric"], or one of whose output features has no ["name"]
    or no ["type"], it fails in a subscript, with a [KeyError] or a
    [TypeError] and never with the descriptive [ValueError]; on a
    configuration proper (output features, when there, a list of mappings
    with string names and types; trainer, when there, a mapping) the failure
    is a [KeyError]. *)
Theorem missing_key_raises_key_error (config : dict) :
  lacks_required_key config ->
  (exists e,
     check_validation_metrics_are_valid config = inl e /\ lookup_error e) /\
  (config_typed config = true ->
   exists key,
     check_validation_metrics_are_valid config = inl (KeyError key)).
Proof.
  intros Hlack. split.
  - now apply missing_key_fails.
  - intros Hty. now apply missing_key_typed.
Qed.

Lemma field_known_iff (config : dict) (features : list value)
    (field : string) :
  dict_lookup config OUTPUT_FEATURES = Some (VList features) ->
  forallb well_formed features = true ->
  validation_field_of config = Some (VStr field) ->
  field_known config <->
  exists names, metrics_of_field features field = Some names.
Proof.
  intros Hof Hwf Hfield.
  assert (Hfeatures : output_features_of config = features)
    by (unfold output_features_of; now rewrite Hof).
  unfold field_known, Spec.metrics_of_field.
  rewrite Hfeatures, Hfield. split.
  - intros (field' & Heq & Hcase). injection Heq as <-.
    destruct (COMBINED =? field)%string eqn:Ec; [now exists [LOSS]|].
    apply String.eqb_neq in Ec. destruct Hcase as [->|Hin]; [congruence|].
    now apply last_metrics_known.
  - intros (names & Hnames). exists field. split; [reflexivity|].
    destruct (COMBINED =? field)%string eqn:Ec.
    + apply String.eqb_eq in Ec. now left.
    + right. apply last_metrics_known; [assumption|now exists names].
Qed.

Lemma metric_registered_iff (config : dict) (features : list value)
    (field metric : string) :
  dict_lookup config OUTPUT_FEATURES = Some (VList features) ->
  validation_field_of config = Some (VStr field) ->
  validation_metric_of config = Some (VStr metric) ->
  metric_registered config <->
  exists names,
    metrics_of_field features field = Some names /\ In metric names.
Proof.
  intros Hof Hfield Hmetric.
  assert (Hfeatures : output_features_of config = features)
    by (unfold output_features_of; now rewrite Hof).
  unfold metric_registered. rewrite Hfeatures, Hfield, Hmetric. split.
  - intros (f & m & names & Hf & Hm & Hnames & Hin).
    injection Hf as <-. injection Hm as <-. now exists names.
  - intros (names & Hnames & Hin). now exists field, metric, names.
Qed.

Lemma combined_always_loss (output_features : value) (m : metrics_map) :
  get_feature_to_metric_names_map output_type_registry output_features =
    inr m ->
  map_lookup m (VStr COMBINED) = Some [LOSS].
Proof.
  unfold get_feature_to_metric_names_map.
  destruct (iterate output_features) as [e|features]; [discriminate|].
  cbn [bind Monad_result].
  destruct (collect_metric_names output_type_registry features [])
    as [e|m0]; [discriminate|].
  cbn. intros H. injection H as <-.
  rewrite MetricsFacts.map_lookup_insert. reflexivity.
Qed.

Lemma check_claim_holds (config : dict) (features : list value)
    (field metric : string) :
  dict_lookup config OUTPUT_FEATURES = Some (VList features) ->
  forallb well_formed features = true ->
  validation_field_of config = Some (VStr field) ->
  validation_metric_of config = Some (VStr metric) ->
  metrics_check_claim config /\
  (forall e,
     check_validation_metrics_are_valid config = inl e ->
     exists message,
       e = ValueError message /\
       ((~ field_known config /\ In (Fmt (VStr field)) message) \/
        (field_known config /\ ~ metric_registered config /\
         In (Fmt (VStr metric)) message))).
Proof.
  intros Hof Hwf Hfield Hmetric.
  pose proof (check_spec config features field metric Hof Hwf Hfield Hmetric)
    as Hcheck.
  pose proof (field_known_iff config features field Hof Hwf Hfield)
    as Hknown.
  pose proof (metric_registered_iff config features field metric
                Hof Hfield Hmetric) as Hregistered.
  destruct (metrics_of_field features field) as [names|] eqn:Enames.
  - destruct (existsb (String.eqb metric) names) eqn:Ein.
    + (* accepted *)
      apply existsb_eqb_In in Ein.
      assert (Hk : field_known config) by (apply Hknown; now exists names).
      assert (Hr : metric_registered config)
        by (apply Hregistered; now exists names).
      repeat split.
      * intros (e & He). congruence.
      * intros [H|H]; contradiction.
      * intros e He. congruence.
      * intros e He. congruence.
    + (* the metric is refused *)
      assert (Hk : field_known config) by (apply Hknown; now exists names).
      assert (Hr : ~ metric_registered config).
      { intros H. apply Hregistered in H as (names' & Heq & Hin).
        injection Heq as <-. apply existsb_eqb_In in Hin. congruence. }
      repeat split.
      * intros _. now right.
      * intros _. eexists. exact Hcheck.
      * intros e He. rewrite Hcheck in He. injection He as <-.
        exists (VStr metric). split; [now right|]. simpl. tauto.
      * intros e He. rewrite Hcheck in He. injection He as <-.
        eexists. split; [reflexivity|]. right. simpl. tauto.
  - (* the field is refused *)
    assert (Hk : ~ field_known config).
    { intros H. apply Hknown in H as (names & H). discriminate. }
    repeat split.
    + intros _. now left.
    + intros _. eexists. exact Hcheck.
    + intros e He. rewrite Hcheck in He. injection He as <-.
      exists (VStr field). split; [now left|]. simpl. tauto.
    + intros e He. rewrite Hcheck in He. injection He as <-.
      eexists. split; [reflexivity|]. left. simpl. tauto.
Qed.

(** C1, amended: on a configuration whose output features each carry a name
    and a registered type and whose trainer carries a [validation_field] and
    a [validation_metric], the check raises if and only if the field names
    neither an output feature nor the combined objective, or the metric is
    not among the metric names the field stands for (the loss alone for
    ["combined"], else those of the last output feature of that name); what
    it raises is a [ValueError] whose message interpolates the offending
    field, respectively the offending metric; and [validate_config] with the
    auxiliary validations on has the outcome of the check once the upgrade,
    the structural validation and the splitter have gone through. *)
Theorem validation_metrics_check_spec (config : dict) (features : list value)
    (field metric : string) :
  dict_lookup config OUTPUT_FEATURES = Some (VList features) ->
  forallb well_formed features = true ->
  validation_field_of config = Some (VStr field) ->
  validation_metric_of config = Some (VStr metric) ->
  metrics_check_claim config /\
  (forall e,
     check_validation_metrics_are_valid config = inl e ->
     exists message,
       e = ValueError message /\
       ((~ field_known config /\ In (Fmt (VStr field)) message) \/
        (field_known config /\ ~ metric_registered config /\
         In (Fmt (VStr metric)) message))) /\
  (forall (env : collaborators) (original : dict) (schema : value)
          (kwargs : dict) (s : splitter env),
     upgrade_config_dict_to_latest_version env original = inr config ->
     get_schema (providers env) (model_type_of config) = inr schema ->
     validate env config schema get_validator = inr tt ->
     get (dict_get config PREPROCESSING (VDict [])) SPLIT (VDict []) =
       inr (VDict kwargs) ->
     get_splitter env kwargs = inr s ->
     splitter_validate env s config = inr tt ->
     fst (run (validate_config output_type_registry env original true)) =
     check_validation_metrics_are_valid config).
Proof.
  intros Hof Hwf Hfield Hmetric.
  destruct (check_claim_holds config features field metric
              Hof Hwf Hfield Hmetric) as [Hclaim Herror].
  split; [exact Hclaim|]. split; [exact Herror|].
  intros env original schema kwargs s. apply validate_config_outcome.
Qed.

(** C2, amended: on such a configuration a violation of the metric
    invariant makes the check raise a [ValueError] (the built-in class; the
    check raises no [ConfigValidationError] on any configuration) whose
    message gives the offending value and what would have been accepted:
    the known fields, or the map from fields to metric names. *)
Theorem violation_raises_value_error (config : dict) (features : list value)
    (field metric : string) :
  dict_lookup config OUTPUT_FEATURES = Some (VList features) ->
  forallb well_formed features = true ->
  validation_field_of config = Some (VStr field) ->
  validation_metric_of config = Some (VStr metric) ->
  violates_metrics_invariant config ->
  (exists message,
     check_validation_metrics_are_valid config = inl (ValueError message) /\
     exn_class (ValueError message) = "ValueError" /\
     ((In (Fmt (VStr field)) message /\
       In (FmtKeys (map_keys (full_map features))) message) \/
      (In (Fmt (VStr metric)) message /\
       In (FmtMap (full_map features)) message))) /\
  (forall config' e,
     check_validation_metrics_are_valid config' = inl e ->
     exn_class e <> "ConfigValidationError").
Proof.
  intros Hof Hwf Hfield Hmetric Hviolates. split.
  - pose proof (check_spec config features field metric Hof Hwf Hfield
                  Hmetric) as Hcheck.
    pose proof (field_known_iff config features field Hof Hwf Hfield)
      as Hknown.
    pose proof (metric_registered_iff config features field metric
                  Hof Hfield Hmetric) as Hregistered.
    destruct (metrics_of_field features field) as [names|] eqn:Enames.
    + destruct (existsb (String.eqb metric) names) eqn:Ein.
      * exfalso. apply existsb_eqb_In in Ein.
        destruct Hviolates as [H|H]; apply H.
        -- apply Hknown. now exists names.
        -- apply Hregistered. now exists names.
      * eexists. split; [exact Hcheck|]. split; [reflexivity|].
        right. simpl. tauto.
    + eexists. split; [exact Hcheck|]. split; [reflexivity|].
      left. simpl. tauto.
  - intros config' e He. apply check_builtin in He.
    destruct e; simpl in *; try discriminate; contradiction.
Qed.

(** C10: whatever the output features, the map gives ["combined"] exactly
    the list [["loss"]].  When every output feature has a name and a
    registered type the map is returned; under a name other than
    ["combined"] it holds the metric names of the last feature of that name
    only; and with [validation_field = "combined"] the check accepts the
    loss metric and nothing else, also when a feature is called
    ["combined"]. *)
Theorem combined_entry_overrides (features : list value) :
  forallb well_formed features = true ->
  (forall output_features m,
     get_feature_to_metric_names_map output_type_registry output_features =
       inr m ->
     map_lookup m (VStr COMBINED) = Some [LOSS]) /\
  exists m,
    get_feature_to_metric_names_map output_type_registry (VList features) =
      inr m /\
    map_lookup m (VStr COMBINED) = Some [LOSS] /\
    (forall pre feature post name names,
       features = pre ++ feature :: post ->
       feature_metrics output_type_registry feature = Some (name, names) ->
       (forall other name' names',
          In other post ->
          feature_metrics output_type_registry other = Some (name', names') ->
          name' <> name) ->
       name <> COMBINED ->
       map_lookup m (VStr name) = Some names) /\
    (forall config metric,
       dict_lookup config OUTPUT_FEATURES = Some (VList features) ->
       validation_field_of config = Some (VStr COMBINED) ->
       validation_metric_of config = Some (VStr metric) ->
       check_validation_metrics_are_valid config = inr tt <-> metric = LOSS).
Proof.
  intros Hwf. split; [exact combined_always_loss|].
  exists (full_map features). split; [now apply get_map_ok|].
  split; [now rewrite lookup_full_map|]. split.
  - intros pre feature post name names -> Hfm Hlast Hname.
    rewrite lookup_full_map. unfold Spec.metrics_of_field.
    destruct (COMBINED =? name)%string eqn:Ec;
      [apply String.eqb_eq in Ec; congruence|].
    rewrite last_metrics_app. cbn [last_metrics].
    rewrite (last_metrics_absent post name Hlast), Hfm.
    now rewrite String.eqb_refl.
  - intros config metric Hof Hfield Hmetric.
    rewrite (check_spec config features COMBINED metric Hof Hwf Hfield
               Hmetric).
    unfold Spec.metrics_of_field. rewrite String.eqb_refl.
    cbn [existsb]. rewrite orb_false_r.
    destruct (metric =? LOSS)%string eqn:Em.
    + apply String.eqb_eq in Em. tauto.
    + apply String.eqb_neq in Em. split; [discriminate|tauto].
Qed.

End Registry.

End MetricsCheck.

(** ** Concrete runs *)

Module Runs.
Import Py Constants Schema Validations Samples.
Import Spec MetricsFacts MetricsCheck PipelineFacts.

Example plain_config_accepted :
  check_validation_metrics_are_valid sample_registry plain_config = inr tt.
Proof. reflexivity. Qed.

Example feature_named_combined_refused :
  check_validation_metrics_are_valid sample_registry
    config_feature_named_combined =
  inl (metric_error (VStr "accuracy") (VStr "combined")
         [(VStr "combined", ["loss"])]).
Proof. reflexivity. Qed.

Lemma unknown_field_violates :
  violates_metrics_invariant sample_registry config_unknown_field.
Proof.
  left. intros (field & Hfield & Hcase).
  injection Hfield as <-.
  destruct Hcase as [H|[H|[]]]; discriminate H.
Qed.

(** C1, as stated, fails in two ways.  Without a trainer section (the
    output feature has its name and type) the check raises
    [KeyError('trainer')], which names neither a field nor a metric.  With
    an output feature whose type is not registered, and a trainer on the
    combined objective and the loss metric, it raises [KeyError('bogus')]
    although the field and the metric are the accepted ones. *)
Lemma metrics_check_claim_fails :
  (forallb carries_name_and_type (output_features_of config_without_trainer)
     = true /\
   check_validation_metrics_are_valid sample_registry config_without_trainer
     = inl (KeyError (VStr "trainer")) /\
   ~ metrics_check_claim sample_registry config_without_trainer) /\
  (forallb carries_name_and_type
     (output_features_of config_unregistered_type) = true /\
   check_validation_metrics_are_valid sample_registry
     config_unregistered_type = inl (KeyError (VStr "bogus")) /\
   ~ metrics_check_claim sample_registry config_unregistered_type).
Proof.
  split; (split; [reflexivity|]); (split; [reflexivity|]).
  - intros [_ Hnames].
    destruct (Hnames (KeyError (VStr TRAINER)) eq_refl) as (v & [H|H] & _);
      discriminate H.
  - intros [[Hraise _] _].
    destruct (Hraise (ex_intro _ (KeyError (VStr "bogus")) eq_refl))
      as [Hk|Hr].
    + apply Hk. exists COMBINED. split; [reflexivity|now left].
    + apply Hr. exists COMBINED, LOSS, [LOSS].
      repeat split; try reflexivity. simpl. tauto.
Qed.

Lemma validation_metrics_check_spec_witness :
  metrics_check_claim sample_registry plain_config.
Proof.
  exact (proj1 (validation_metrics_check_spec sample_registry plain_config
                  [feature "y" "category"] "y" "accuracy"
                  eq_refl eq_refl eq_refl eq_refl)).
Defined.

(** C2, as stated, fails on [validation_field = "nonexistent"]: the metric
    invariant is violated and the check raises a [ValueError], which is no
    [ConfigValidationError]. *)
Lemma error_class_claim_fails_on_unknown_field :
  (exists message,
     check_validation_metrics_are_valid sample_registry config_unknown_field
       = inl (ValueError message)) /\
  ~ error_class_claim sample_registry config_unknown_field.
Proof.
  split; [eexists; reflexivity|].
  intros Hclaim.
  destruct (Hclaim unknown_field_violates) as (e & He & Hclass).
  vm_compute in He. injection He as <-. discriminate Hclass.
Qed.

Lemma violation_raises_value_error_witness :
  exists message,
    check_validation_metrics_are_valid sample_registry config_unknown_field
      = inl (ValueError message) /\
    exn_class (ValueError message) = "ValueError" /\
    ((In (Fmt (VStr "nonexistent")) message /\
      In (FmtKeys
            (map_keys (full_map sample_registry [feature "y" "category"])))
         message) \/
     (In (Fmt (VStr "accuracy")) message /\
      In (FmtMap (full_map sample_registry [feature "y" "category"]))
         message)).
Proof.
  exact (proj1 (violation_raises_value_error sample_registry
                  config_unknown_field [feature "y" "category"]
                  "nonexistent" "accuracy"
                  eq_refl eq_refl eq_refl eq_refl unknown_field_violates)).
Defined.

Lemma missing_key_raises_key_error_witness :
  exists key,
    check_validation_metrics_are_valid sample_registry config_without_trainer
      = inl (KeyError key).
Proof.
  exact (proj2 (missing_key_raises_key_error sample_registry
                  config_without_trainer (or_introl eq_refl))
           eq_refl).
Defined.

Lemma combined_entry_overrides_witness :
  exists m,
    get_feature_to_metric_names_map sample_registry
      (VList [feature COMBINED "category"]) = inr m /\
    map_lookup m (VStr COMBINED) = Some [LOSS].
Proof.
  destruct (proj2 (combined_entry_overrides sample_registry
                     [feature COMBINED "category"] eq_refl))
    as (m & Hm & Hcombined & _).
  exists m. split; assumption.
Defined.

(** C3: [check_feature_names_unique] returns on every configuration; a
    configuration with two output features called ["y"] goes through the
    whole of [validate_config], the uniqueness check included. *)
Theorem duplicate_output_names_pass :
  (forall config, check_feature_names_unique config = inr tt) /\
  map feature_name (output_features_of config_duplicate_outputs)
    = [Some "y"; Some "y"] /\
  fst (run (validate_config sample_registry permissive
              config_duplicate_outputs true)) = inr tt /\
  In (CallCheck FeatureNamesUnique config_duplicate_outputs)
     (snd (run (validate_config sample_registry permissive
                  config_duplicate_outputs true))).
Proof.
  split; [reflexivity|]. split; [reflexivity|]. split; [reflexivity|].
  vm_compute. tauto.
Qed.

(** C4: [check_training_runway] returns on every configuration; a
    configuration with [checkpoints_per_epoch = 2] and
    [steps_per_checkpoint = 100] goes through the whole of
    [validate_config], the runway check included. *)
Theorem both_checkpoint_options_pass :
  (forall config, check_training_runway config = inr tt) /\
  trainer_entry config_both_checkpoint_options "checkpoints_per_epoch"
    = Some (VInt 2) /\
  trainer_entry config_both_checkpoint_options "steps_per_checkpoint"
    = Some (VInt 100) /\
  fst (run (validate_config sample_registry permissive
              config_both_checkpoint_options true)) = inr tt /\
  In (CallCheck TrainingRunway config_both_checkpoint_options)
     (snd (run (validate_config sample_registry permissive
                  config_both_checkpoint_options true))).
Proof.
  split; [reflexivity|]. split; [reflexivity|]. split; [reflexivity|].
  split; [reflexivity|]. vm_compute. tauto.
Qed.

End Runs.

(** ** More on the local-topology discovery *)

Module DdpMore.
Import Ddp DdpFacts.

Lemma filter_length_permutation {A : Type} (f : A -> bool) (l l' : list A) :
  Permutation l l' -> length (filter f l) = length (filter f l').
Proof.
  induction 1 as [|x l l' _ IH|x y l|l l' l'' _ IH1 _ IH2]; simpl.
  - reflexivity.
  - destruct (f x); simpl; congruence.
  - destruct (f x), (f y); reflexivity.
  - congruence.
Qed.

Lemma lower_count_zero rank host output :
  lower_count rank host output = 0%nat <->
  forall other, In (other, host) output -> rank <= other.
Proof.
  unfold lower_count. split.
  - intros Hlen other Hin.
    destruct (Z.ltb_spec other rank) as [Hlt|Hge]; [|assumption].
    exfalso.
    assert (Hmem : In (other, host)
                      (filter (below rank) (filter (on_host host) output))).
    { apply filter_In. split.
      - apply filter_In. split; [assumption|]. now apply on_host_true.
      - unfold below. now apply Z.ltb_lt. }
    destruct (filter (below rank) (filter (on_host host) output));
      [destruct Hmem|discriminate].
  - intros Hmin.
    destruct (filter (below rank) (filter (on_host host) output))
      as [|[other h] rest] eqn:Ef; [reflexivity|].
    exfalso.
    assert (Hmem : In (other, h)
                      (filter (below rank) (filter (on_host host) output)))
      by (rewrite Ef; now left).
    apply filter_In in Hmem as [Hmem Hbelow].
    apply filter_In in Hmem as [Hmem Hhost].
    apply on_host_true in Hhost. simpl in Hhost. subst h.
    unfold below in Hbelow. simpl in Hbelow. apply Z.ltb_lt in Hbelow.
    specialize (Hmin other Hmem). lia.
Qed.

Lemma host_count_cons host entry output :
  host_count host (entry :: output) =
  ((if on_host host entry then 1 else 0) + host_count host output)%nat.
Proof.
  unfold host_count. simpl. now destruct (on_host host entry).
Qed.

Lemma one_host_matches (hosts : list string) (entry : Z * string) :
  NoDup hosts -> In (snd entry) hosts ->
  fold_right Z.add 0
    (map (fun host => if on_host host entry then 1 else 0) hosts) = 1.
Proof.
  induction 1 as [|host hosts Hnotin Hnd IH]; simpl; [tauto|].
  intros [Heq|Hin].
  - subst host. unfold on_host at 1. rewrite String.eqb_refl.
    assert (Hzero : fold_right Z.add 0
              (map (fun host => if on_host host entry then 1 else 0) hosts)
              = 0).
    { clear IH Hnd. induction hosts as [|h hosts IH]; [reflexivity|].
      simpl. destruct (on_host h entry) eqn:Eh.
      - apply on_host_true in Eh. exfalso. apply Hnotin. now left.
      - rewrite IH; [reflexivity|]. intros Hin. apply Hnotin. now right. }
    rewrite Hzero. reflexivity.
  - destruct (on_host host entry) eqn:Eh.
    + apply on_host_true in Eh. exfalso. apply Hnotin. now rewrite <- Eh.
    + rewrite (IH Hin). reflexivity.
Qed.

(** X1: when the gathered list holds the caller's own pair, the local rank
    is a valid index into the local group, [0 <= local_rank < local_size],
    and the local size is at most the number of gathered entries. *)
Theorem local_rank_below_local_size rank host output :
  In (rank, host) output ->
  0 <= fst (local_rank_and_size rank host output)
     < snd (local_rank_and_size rank host output) /\
  snd (local_rank_and_size rank host output) <= Z.of_nat (length output).
Proof.
  intros Hin. rewrite local_rank_and_size_eq. cbn [fst snd].
  assert (Hlt : (lower_count rank host output < host_count host output)%nat).
  { unfold lower_count, host_count.
    apply (filter_length_lt _ (rank, host)).
    - apply filter_In. split; [assumption|]. now apply on_host_true.
    - unfold below. apply Z.ltb_irrefl. }
  assert (Hle : (host_count host output <= length output)%nat)
    by apply filter_length_le.
  lia.
Qed.

Lemma local_rank_below_local_size_witness :
  In (4, "H1") (all_gather_object example_hosts) /\
  0 <= fst (local_rank_and_size 4 "H1" (all_gather_object example_hosts))
     < snd (local_rank_and_size 4 "H1" (all_gather_object example_hosts)).
Proof.
  assert (Hin : In (4, "H1") (all_gather_object example_hosts))
    by (simpl; tauto).
  split; [exact Hin|].
  exact (proj1 (local_rank_below_local_size 4 "H1" _ Hin)).
Defined.

(** X2: the result does not depend on the order in which the transport
    delivers the gathered pairs: two lists that are permutations of each
    other give the same local rank and local size. *)
Theorem local_rank_and_size_order_free rank host output output' :
  Permutation output output' ->
  local_rank_and_size rank host output =
  local_rank_and_size rank host output'.
Proof.
  intros Hperm. rewrite !local_rank_and_size_eq.
  unfold lower_count, host_count.
  assert (Hhost : Permutation (filter (on_host host) output)
                              (filter (on_host host) output')).
  { clear rank. induction Hperm as [|x l l' _ IH|x y l|l l' l'' _ IH1 _ IH2];
      simpl.
    - constructor.
    - destruct (on_host host x); [now constructor|assumption].
    - destruct (on_host host x), (on_host host y);
        try apply Permutation_refl. apply perm_swap.
    - now apply Permutation_trans with (filter (on_host host) l'). }
  rewrite (filter_length_permutation _ _ _ Hhost).
  rewrite (filter_length_permutation _ _ _ Hperm).
  reflexivity.
Qed.

Lemma local_rank_and_size_order_free_witness :
  local_rank_and_size 2 "H1" (all_gather_object example_hosts) =
  local_rank_and_size 2 "H1" (rev (all_gather_object example_hosts)).
Proof.
  exact (local_rank_and_size_order_free 2 "H1" _ _ (Permutation_rev _)).
Defined.

(** X3: local ranks follow the global ranks on a host: a worker whose pair
    is in the gathered list gets a strictly smaller local rank than any
    worker of the same host with a larger global rank. *)
Theorem local_rank_order_preserving rank rank' host output :
  In (rank, host) output ->
  rank < rank' ->
  fst (local_rank_and_size rank host output)
  < fst (local_rank_and_size rank' host output).
Proof.
  intros Hin Hlt. rewrite !local_rank_and_size_eq. cbn [fst].
  assert (Hmem : In (rank, host) (filter (on_host host) output)).
  { apply filter_In. split; [assumption|]. now apply on_host_true. }
  pose proof (rank_among_strict (filter (on_host host) output)
                (rank, host) (rank', host) Hmem Hlt) as Hstrict.
  unfold rank_among in Hstrict. cbn [fst] in Hstrict.
  unfold lower_count. lia.
Qed.

Lemma local_rank_order_preserving_witness :
  In (0, "H1") (all_gather_object example_hosts) /\
  fst (local_rank_and_size 0 "H1" (all_gather_object example_hosts))
  < fst (local_rank_and_size 4 "H1" (all_gather_object example_hosts)).
Proof.
  assert (Hin : In (0, "H1") (all_gather_object example_hosts))
    by (simpl; tauto).
  split; [exact Hin|].
  apply (local_rank_order_preserving 0 4 "H1" _ Hin). reflexivity.
Defined.

(** X4: a worker gets local rank 0 exactly when no gathered entry of its
    host has a smaller global rank. *)
Theorem local_rank_zero_iff_least rank host output :
  fst (local_rank_and_size rank host output) = 0 <->
  forall other, In (other, host) output -> rank <= other.
Proof.
  rewrite local_rank_and_size_eq. cbn [fst].
  rewrite <- lower_count_zero. lia.
Qed.

Lemma local_rank_zero_iff_least_witness :
  fst (local_rank_and_size 1 "H2" (all_gather_object example_hosts)) = 0.
Proof.
  apply (proj2 (local_rank_zero_iff_least 1 "H2"
                  (all_gather_object example_hosts))).
  simpl. intros other H.
  repeat (destruct H as [H|H]; [injection H as <-; try discriminate; lia|]).
  destruct H.
Defined.

(** X5: only the entries of the caller's own host count: two gathered lists
    with the same entries on that host give the same result, whatever the
    other hosts contribute. *)
Theorem local_rank_and_size_host_local rank host output output' :
  filter (on_host host) output = filter (on_host host) output' ->
  local_rank_and_size rank host output =
  local_rank_and_size rank host output'.
Proof.
  intros Heq. rewrite !local_rank_and_size_eq.
  unfold lower_count, host_count. now rewrite Heq.
Qed.

Lemma local_rank_and_size_host_local_witness :
  local_rank_and_size 2 "H1" (all_gather_object example_hosts) =
  local_rank_and_size 2 "H1" [(0, "H1"); (2, "H1"); (4, "H1"); (7, "H3")].
Proof.
  exact (local_rank_and_size_host_local 2 "H1" _ _ eq_refl).
Defined.

(** X6: the local sizes of the hosts add up to the world size: over a
    duplicate-free list of hosts that covers every gathered entry, the sum
    of the local sizes is the number of gathered entries. *)
Theorem local_sizes_sum_to_world_size rank (hosts : list string) output :
  NoDup hosts ->
  (forall entry, In entry output -> In (snd entry) hosts) ->
  fold_right Z.add 0
    (map (fun host => snd (local_rank_and_size rank host output)) hosts)
  = Z.of_nat (length output).
Proof.
  intros Hnd Hcover.
  rewrite (map_ext _ (fun host => Z.of_nat (host_count host output)))
    by (intros host; now rewrite local_rank_and_size_eq).
  induction output as [|entry output IH].
  - simpl. clear Hnd Hcover. induction hosts as [|h hosts IH];
      [reflexivity|]. simpl. rewrite IH. reflexivity.
  - assert (Hsplit : forall hs,
      fold_right Z.add 0
        (map (fun host => Z.of_nat (host_count host (entry :: output))) hs) =
      fold_right Z.add 0
        (map (fun host => if on_host host entry then 1 else 0) hs)
      + fold_right Z.add 0
          (map (fun host => Z.of_nat (host_count host output)) hs)).
    { induction hs as [|h hs IHhs]; [reflexivity|].
      simpl. rewrite IHhs, host_count_cons.
      destruct (on_host h entry); lia. }
    rewrite Hsplit, IH by (intros e He; apply Hcover; now right).
    rewrite (one_host_matches hosts entry Hnd)
      by (apply Hcover; now left).
    simpl length. lia.
Qed.

Lemma local_sizes_sum_to_world_size_witness :
  fold_right Z.add 0
    (map (fun host =>
            snd (local_rank_and_size 0 host (all_gather_object example_hosts)))
         ["H1"; "H2"])
  = Z.of_nat (length (all_gather_object example_hosts)).
Proof.
  apply local_sizes_sum_to_world_size.
  - repeat constructor; simpl; intuition discriminate.
  - simpl. intros entry H.
    repeat (destruct H as [<-|H]; [simpl; tauto|]). destruct H.
Defined.

End DdpMore.

(** ** More on the validation pipeline *)

Module PipelineMore.
Import Py Constants Schema Validations Spec SpecMore PipelineFacts.

Section Pipeline.

Variable output_type_registry : string -> option (list string).
Variable env : collaborators.

Local Abbreviation validate_config :=
  (validate_config output_type_registry env).
Local Abbreviation check_validation_metrics_are_valid :=
  (check_validation_metrics_are_valid output_type_registry).

(** Every way a run with the auxiliary validations can go. *)
Lemma run_with_auxiliary (config : dict) :
  run (validate_config config true) =
  match upgrade_config_dict_to_latest_version env config with
  | inl e => (inl e, [CallUpgrade config])
  | inr updated_config =>
      match get_schema (providers env) (model_type_of updated_config) with
      | inl e =>
          (inl e,
           [ CallUpgrade config; LockAcquire;
             CallGetSchema (model_type_of updated_config); LockRelease ])
      | inr schema =>
          let structural := structural_trace config updated_config schema in
          match validate env updated_config schema get_validator with
          | inl e => (inl e, structural)
          | inr _ =>
              match split_kwargs updated_config with
              | inl e => (inl e, structural)
              | inr kwargs =>
                  match get_splitter env kwargs with
                  | inl e => (inl e, structural ++ [CallGetSplitter kwargs])
                  | inr s =>
                      match splitter_validate env s updated_config with
                      | inl e =>
                          (inl e,
                           structural ++ splitter_trace updated_config kwargs)
                      | inr _ =>
                          match check_validation_metrics_are_valid
                                  updated_config with
                          | inl e =>
                              (inl e,
                               structural
                               ++ splitter_trace updated_config kwargs
                               ++ [CallCheck ValidationMetricsAreValid
                                     updated_config])
                          | inr _ =>
                              (inr tt,
                               structural
                               ++ splitter_trace updated_config kwargs
                               ++ map (fun c => CallCheck c updated_config)
                                      battery)
                          end
                      end
                  end
              end
          end
      end
  end.
Proof.
  unfold run, Validations.validate_config, run_check, call, with_lock, emit,
    lift, model_type_of, structural_trace, splitter_trace, split_kwargs.
  cbn.
  destruct (upgrade_config_dict_to_latest_version env config)
    as [e|updated_config]; [reflexivity|].
  cbn.
  destruct (get_schema (providers env) _) as [e|schema]; [reflexivity|].
  cbn.
  destruct (validate env updated_config schema get_validator) as [e|[]];
    [reflexivity|].
  cbn.
  destruct (get (dict_get updated_config PREPROCESSING (VDict [])) SPLIT
              (VDict [])) as [e|split_options]; [reflexivity|].
  cbn.
  destruct split_options as [| | | | |kwargs]; reflexivity.
Qed.

Lemma split_kwargs_cases (updated_config : dict) :
  split_kwargs updated_config =
  match dict_lookup updated_config PREPROCESSING with
  | None => inr []
  | Some (VDict preprocessing) =>
      match dict_lookup preprocessing SPLIT with
      | None => inr []
      | Some (VDict kwargs) => inr kwargs
      | Some _ => inl TypeError
      end
  | Some _ => inl AttributeError
  end.
Proof.
  unfold split_kwargs, dict_get.
  destruct (dict_lookup updated_config PREPROCESSING)
    as [[| | | | |preprocessing]|]; try reflexivity.
  cbn. unfold dict_get.
  now destruct (dict_lookup preprocessing SPLIT) as [[| | | | |kwargs]|].
Qed.

(** X7: the auxiliary phase only ever follows a structural validation that
    went through.  When the call without auxiliary validations raises, the
    call with them raises the same exception after the same events; in any
    case its events are those of the call without them, followed by splitter
    and check events only. *)
Theorem auxiliary_phase_comes_last (config : dict) :
  (forall e,
     fst (run (validate_config config false)) = inl e ->
     run (validate_config config true) = run (validate_config config false))
  /\
  exists rest,
    snd (run (validate_config config true)) =
    snd (run (validate_config config false)) ++ rest /\
    Forall (fun ev => auxiliary ev = true) rest.
Proof.
  rewrite run_with_auxiliary, run_structural.
  destruct (upgrade_config_dict_to_latest_version env config)
    as [e|updated_config].
  { split; [reflexivity|]. exists []. split; [reflexivity|constructor]. }
  destruct (get_schema (providers env) (model_type_of updated_config))
    as [e|schema].
  { split; [reflexivity|]. exists []. split; [reflexivity|constructor]. }
  cbn zeta.
  destruct (validate env updated_config schema get_validator) as [e|[]].
  { split; [reflexivity|]. exists []. split; [reflexivity|constructor]. }
  split; [discriminate|]. cbn [snd].
  destruct (split_kwargs updated_config) as [e|kwargs].
  { exists []. split; [now rewrite app_nil_r|constructor]. }
  destruct (get_splitter env kwargs) as [e|s].
  { eexists. split; [reflexivity|repeat constructor]. }
  destruct (splitter_validate env s updated_config) as [e|[]].
  { eexists. split; [reflexivity|repeat constructor]. }
  destruct (check_validation_metrics_are_valid updated_config) as [e|[]];
    eexists; (split; [reflexivity|repeat constructor]).
Qed.

(** X8: whatever the collaborators do and whatever the flag, the lock is
    released again by the end of the call, also when [get_schema] or the
    structural validation raises; the schema, the validator and the
    structural validation are used only while it is held, and the upgrader,
    the splitter and the checks only while it is free. *)
Theorem lock_released_and_scoped (config : dict)
    (include_auxiliary_validations : bool) :
  lock_discipline false
    (snd (run (validate_config config include_auxiliary_validations)))
  = true.
Proof.
  destruct include_auxiliary_validations.
  - rewrite run_with_auxiliary.
    destruct (upgrade_config_dict_to_latest_version env config)
      as [e|updated_config]; [reflexivity|].
    destruct (get_schema (providers env) (model_type_of updated_config))
      as [e|schema]; [reflexivity|].
    cbn zeta.
    destruct (validate env updated_config schema get_validator) as [e|[]];
      [reflexivity|].
    destruct (split_kwargs updated_config) as [e|kwargs]; [reflexivity|].
    destruct (get_splitter env kwargs) as [e|s]; [reflexivity|].
    destruct (splitter_validate env s updated_config) as [e|[]];
      [reflexivity|].
    destruct (check_validation_metrics_are_valid updated_config) as [e|[]];
      reflexivity.
  - rewrite run_structural.
    destruct (upgrade_config_dict_to_latest_version env config)
      as [e|updated_config]; [reflexivity|].
    destruct (get_schema (providers env) (model_type_of updated_config))
      as [e|schema]; reflexivity.
Qed.

(** X9: the splitter is built from the [split] section of the
    [preprocessing] section of the upgraded configuration; when the
    configuration has no [preprocessing] section, or that section has no
    [split] entry, [get_splitter] is called without any option. *)
Theorem splitter_options_default_to_none (config updated_config : dict)
    (schema : value) :
  upgrade_config_dict_to_latest_version env config = inr updated_config ->
  get_schema (providers env) (model_type_of updated_config) = inr schema ->
  validate env updated_config schema get_validator = inr tt ->
  (dict_lookup updated_config PREPROCESSING = None \/
   exists preprocessing,
     dict_lookup updated_config PREPROCESSING = Some (VDict preprocessing) /\
     dict_lookup preprocessing SPLIT = None) ->
  In (CallGetSplitter []) (snd (run (validate_config config true))) /\
  forall kwargs,
    In (CallGetSplitter kwargs) (snd (run (validate_config config true))) ->
    kwargs = [].
Proof.
  intros Hup Hschema Hvalid Hnone.
  assert (Hkw : split_kwargs updated_config = inr []).
  { rewrite split_kwargs_cases.
    destruct Hnone as [H|(preprocessing & H & Hsplit)]; rewrite H;
      [reflexivity|now rewrite Hsplit]. }
  rewrite run_with_auxiliary, Hup, Hschema. cbn zeta.
  rewrite Hvalid, Hkw.
  assert (Hother : forall kwargs rest,
            Forall (fun ev => match ev with
                              | CallGetSplitter _ => False
                              | _ => True
                              end) rest ->
            In (CallGetSplitter kwargs)
               (structural_trace config updated_config schema
                ++ CallGetSplitter [] :: rest) ->
            kwargs = []).
  { intros kwargs rest Hrest Hin. apply in_app_or in Hin as [Hin|Hin].
    - simpl in Hin. intuition discriminate.
    - destruct Hin as [Heq|Hin]; [now injection Heq|].
      rewrite Forall_forall in Hrest. now destruct (Hrest _ Hin). }
  destruct (get_splitter env []) as [e|s].
  { cbn [snd]. split; [apply in_or_app; right; now left|].
    intros kwargs. apply Hother. constructor. }
  destruct (splitter_validate env s updated_config) as [e|[]].
  { cbn [snd]. split; [apply in_or_app; right; now left|].
    intros kwargs. apply Hother. repeat constructor. }
  destruct (check_validation_metrics_are_valid updated_config) as [e|[]];
    cbn [snd]; (split; [apply in_or_app; right; now left|]);
    intros kwargs; apply Hother; repeat constructor.
Qed.

(** X10: a [preprocessing] section that is no mapping makes the call raise
    [AttributeError], and a [split] entry that is no mapping makes it raise
    [TypeError]; either way this happens after the structural validation,
    and neither the splitter nor any check is reached. *)
Theorem malformed_split_section_raises (config updated_config : dict)
    (schema : value) :
  upgrade_config_dict_to_latest_version env config = inr updated_config ->
  get_schema (providers env) (model_type_of updated_config) = inr schema ->
  validate env updated_config schema get_validator = inr tt ->
  (forall v,
     dict_lookup updated_config PREPROCESSING = Some v ->
     is_mapping v = false ->
     run (validate_config config true) =
     (inl AttributeError, structural_trace config updated_config schema)) /\
  (forall preprocessing v,
     dict_lookup updated_config PREPROCESSING = Some (VDict preprocessing) ->
     dict_lookup preprocessing SPLIT = Some v ->
     is_mapping v = false ->
     run (validate_config config true) =
     (inl TypeError, structural_trace config updated_config schema)).
Proof.
  intros Hup Hschema Hvalid.
  split.
  - intros v Hv Hmap.
    rewrite run_with_auxiliary, Hup, Hschema. cbn zeta.
    rewrite Hvalid, split_kwargs_cases, Hv.
    destruct v; simpl in Hmap; try discriminate Hmap; reflexivity.
  - intros preprocessing v Hp Hv Hmap.
    rewrite run_with_auxiliary, Hup, Hschema. cbn zeta.
    rewrite Hvalid, split_kwargs_cases, Hp, Hv.
    destruct v; simpl in Hmap; try discriminate Hmap; reflexivity.
Qed.

(** X11: a model type that cannot be hashed (a list or a mapping) makes the
    call raise [TypeError] when it asks for the schema, with or without the
    auxiliary validations: the lock is released and the structural
    validation is never run. *)
Theorem unhashable_model_type_raises (config updated_config : dict)
    (include_auxiliary_validations : bool) :
  upgrade_config_dict_to_latest_version env config = inr updated_config ->
  hashable (model_type_of updated_config) = false ->
  run (validate_config config include_auxiliary_validations) =
  (inl TypeError,
   [ CallUpgrade config; LockAcquire;
     CallGetSchema (model_type_of updated_config); LockRelease ]).
Proof.
  intros Hup Hhash.
  assert (Hschema : get_schema (providers env) (model_type_of updated_config)
                    = inl TypeError)
    by (unfold get_schema; now rewrite Hhash).
  destruct include_auxiliary_validations.
  - now rewrite run_with_auxiliary, Hup, Hschema.
  - now rewrite run_structural, Hup, Hschema.
Qed.

(** X12: with the auxiliary validations on, the call returns normally if
    and only if every stage does: the upgrade, [get_schema], the structural
    validation, the reading of the split options, [get_splitter], the
    validation by the splitter, and [check_validation_metrics_are_valid] on
    the upgraded configuration. *)
Theorem returns_iff_every_stage_returns (config : dict) :
  fst (run (validate_config config true)) = inr tt <->
  exists updated_config schema kwargs (s : splitter env),
    upgrade_config_dict_to_latest_version env config = inr updated_config /\
    get_schema (providers env) (model_type_of updated_config) = inr schema /\
    validate env updated_config schema get_validator = inr tt /\
    split_kwargs updated_config = inr kwargs /\
    get_splitter env kwargs = inr s /\
    splitter_validate env s updated_config = inr tt /\
    check_validation_metrics_are_valid updated_config = inr tt.
Proof.
  rewrite run_with_auxiliary. split.
  - destruct (upgrade_config_dict_to_latest_version env config)
      as [e|updated_config] eqn:Hup; [discriminate|].
    destruct (get_schema (providers env) (model_type_of updated_config))
      as [e|schema] eqn:Hschema; [discriminate|].
    cbn zeta.
    destruct (validate env updated_config schema get_validator) as [e|[]]
      eqn:Hvalid; [discriminate|].
    destruct (split_kwargs updated_config) as [e|kwargs] eqn:Hkw;
      [discriminate|].
    destruct (get_splitter env kwargs) as [e|s] eqn:Hs; [discriminate|].
    destruct (splitter_validate env s updated_config) as [e|[]] eqn:Hsv;
      [discriminate|].
    destruct (check_validation_metrics_are_valid updated_config) as [e|[]]
      eqn:Hcheck; [discriminate|].
    intros _. exists updated_config, schema, kwargs, s.
    repeat split; assumption.
  - intros (updated_config & schema & kwargs & s
            & Hup & Hschema & Hvalid & Hkw & Hs & Hsv & Hcheck).
    rewrite Hup, Hschema. cbn zeta.
    now rewrite Hvalid, Hkw, Hs, Hsv, Hcheck.
Qed.

End Pipeline.

Import Samples SamplesMore.

Lemma auxiliary_phase_comes_last_witness :
  run (validate_config sample_registry refusing plain_config true) =
  run (validate_config sample_registry refusing plain_config false).
Proof.
  exact (proj1 (auxiliary_phase_comes_last sample_registry refusing
                  plain_config)
           (ForeignError "ValidationError" "refused") eq_refl).
Defined.

Lemma splitter_options_default_to_none_witness :
  In (CallGetSplitter [])
     (snd (run (validate_config sample_registry permissive plain_config
                  true))).
Proof.
  exact (proj1 (splitter_options_default_to_none sample_registry permissive
                  plain_config plain_config _ eq_refl eq_refl eq_refl
                  (or_introl eq_refl))).
Defined.

Lemma malformed_split_section_raises_witness :
  fst (run (validate_config sample_registry permissive
              config_list_preprocessing true)) = inl AttributeError /\
  fst (run (validate_config sample_registry permissive
              config_string_split true)) = inl TypeError.
Proof.
  split.
  - exact (f_equal fst
             (proj1 (malformed_split_section_raises sample_registry permissive
                       config_list_preprocessing config_list_preprocessing _
                       eq_refl eq_refl eq_refl)
                (VList []) eq_refl eq_refl)).
  - exact (f_equal fst
             (proj2 (malformed_split_section_raises sample_registry permissive
                       config_string_split config_string_split _
                       eq_refl eq_refl eq_refl)
                [(SPLIT, VStr "random")] (VStr "random")
                eq_refl eq_refl eq_refl)).
Defined.

Lemma unhashable_model_type_raises_witness :
  fst (run (validate_config sample_registry permissive
              config_list_model_type true)) = inl TypeError.
Proof.
  exact (f_equal fst
           (unhashable_model_type_raises sample_registry permissive
              config_list_model_type config_list_model_type true
              eq_refl eq_refl)).
Defined.

Lemma returns_iff_every_stage_returns_witness :
  fst (run (validate_config sample_registry permissive plain_config true))
  = inr tt.
Proof.
  apply (proj2 (returns_iff_every_stage_returns sample_registry permissive
                  plain_config)).
  exists plain_config. eexists. exists [], tt.
  repeat split; reflexivity.
Defined.

End PipelineMore.

(** ** More on the metric map and the validation-metric check *)

Module MetricsMore.
Import Py Constants Schema Validations Spec SpecMore MetricsFacts MetricsCheck.

Section Registry.

Variable output_type_registry : string -> option (list string).

Local Abbreviation check_validation_metrics_are_valid :=
  (check_validation_metrics_are_valid output_type_registry).
Local Abbreviation get_feature_to_metric_names_map :=
  (get_feature_to_metric_names_map output_type_registry).
Local Abbreviation feature_metrics := (feature_metrics output_type_registry).
Local Abbreviation well_formed := (well_formed output_type_registry).
Local Abbreviation build := (build output_type_registry).
Local Abbreviation full_map := (full_map output_type_registry).
Local Abbreviation metrics_of_field :=
  (metrics_of_field output_type_registry).

Lemma keys_after_insert (m : metrics_map) (keys : list string) (name : string)
    (v : list string) :
  map_keys m = map VStr keys ->
  map_keys (map_insert m (VStr name) v) =
  map VStr (keys ++ if existsb (String.eqb name) keys then [] else [name]).
Proof.
  revert keys. induction m as [|[k0 v0] m IH]; intros keys Hkeys.
  - destruct keys; [reflexivity|discriminate].
  - destruct keys as [|key keys]; [discriminate|].
    cbn in Hkeys. injection Hkeys as -> Hrest.
    cbn [map_insert key_eqb existsb]. rewrite (String.eqb_sym name key).
    destruct (key =? name)%string; cbn [orb].
    + cbn. rewrite app_nil_r. now rewrite <- Hrest.
    + cbn. f_equal. now apply IH.
Qed.

Lemma keys_after_build (features : list value) (m : metrics_map)
    (keys : list string) :
  forallb well_formed features = true ->
  map_keys m = map VStr keys ->
  map_keys (build features m) =
  map VStr (keys ++ first_occurrences keys (names_of features)).
Proof.
  revert m keys. induction features as [|feature rest IH];
    intros m keys Hwf Hkeys.
  - cbn. now rewrite app_nil_r.
  - simpl in Hwf. apply andb_true_iff in Hwf as [Hf Hrest].
    rewrite build_cons. unfold Spec.well_formed in Hf.
    destruct (feature_metrics feature) as [[name ms]|] eqn:Efm;
      [|discriminate].
    assert (Hname : feature_name feature = Some name).
    { unfold Spec.feature_metrics in Efm.
      destruct (feature_name feature) as [n|]; [|discriminate].
      destruct (feature_type feature) as [t|]; [|discriminate].
      destruct (output_type_registry t); [|discriminate].
      now injection Efm as -> _. }
    unfold names_of. cbn [flat_map]. rewrite Hname. cbn [app].
    fold (names_of rest). cbn [first_occurrences].
    rewrite (IH _ _ Hrest (keys_after_insert m keys name ms Hkeys)).
    destruct (existsb (String.eqb name) keys).
    + now rewrite app_nil_r.
    + now rewrite <- app_assoc.
Qed.

Lemma in_map_insert (m : metrics_map) (k k' : value) (v v' : list string) :
  In (k, v) (map_insert m k' v') -> v = v' \/ In (k, v) m.
Proof.
  induction m as [|[k0 v0] m IH]; simpl.
  - intros [H|[]]. left. now injection H.
  - destruct (key_eqb k0 k'); simpl.
    + intros [H|H]; [left; now injection H|right; now right].
    + intros [H|H]; [right; now left|].
      destruct (IH H) as [Hv|Hin]; [now left|right; now right].
Qed.

Lemma collect_values_registered (features : list value) (m m' : metrics_map) :
  (forall k v, In (k, v) m ->
               exists type, output_type_registry type = Some v) ->
  collect_metric_names output_type_registry features m = inr m' ->
  forall k v, In (k, v) m' ->
              exists type, output_type_registry type = Some v.
Proof.
  revert m. induction features as [|feature rest IH]; intros m Hm Hc.
  - injection Hc as <-. exact Hm.
  - cbn [collect_metric_names] in Hc.
    destruct (getitem feature NAME) as [e|name]; [discriminate Hc|].
    destruct (getitem feature TYPE) as [e|type]; [discriminate Hc|].
    cbn [bind Monad_result] in Hc.
    destruct (registry_getitem output_type_registry type) as [e|ms] eqn:Er;
      [discriminate Hc|].
    cbn [bind Monad_result] in Hc.
    destruct (map_setitem m name ms) as [e|m1] eqn:Es; [discriminate Hc|].
    cbn [bind Monad_result] in Hc.
    apply (IH m1); [|exact Hc].
    assert (Hreg : exists t, output_type_registry t = Some ms).
    { unfold registry_getitem in Er.
      destruct (hashable type); [|discriminate Er].
      destruct type as [| | |t| |]; try discriminate Er.
      destruct (output_type_registry t) as [ms'|] eqn:Et;
        [|discriminate Er].
      injection Er as <-. now exists t. }
    unfold map_setitem in Es.
    destruct (hashable name); [|discriminate Es]. injection Es as <-.
    intros k v Hin. apply in_map_insert in Hin as [->|Hin];
      [exact Hreg|now apply (Hm k)].
Qed.

Lemma collect_first_failure (features : list value) (m : metrics_map) :
  forallb feature_typed features = true ->
  collect_metric_names output_type_registry features m =
  match first_failure output_type_registry features with
  | Some e => inl e
  | None => inr (build features m)
  end.
Proof.
  revert m. induction features as [|feature rest IH]; intros m Hty.
  - reflexivity.
  - simpl in Hty. apply andb_true_iff in Hty as [Hf Hrest].
    unfold feature_typed in Hf.
    destruct feature as [| | | | |d]; try discriminate.
    apply andb_true_iff in Hf as [Hn Ht].
    rewrite build_cons.
    cbn [first_failure collect_metric_names getitem].
    unfold feature_failure, Spec.feature_metrics, feature_name, feature_type,
      feature_entry, dict_getitem.
    destruct (dict_lookup d NAME) as [[| | |name| |]|]; try discriminate;
      [|reflexivity].
    destruct (dict_lookup d TYPE) as [[| | |type| |]|]; try discriminate;
      [|reflexivity].
    cbn. destruct (output_type_registry type) as [ms|]; [|reflexivity].
    cbn. apply IH, Hrest.
Qed.

(** X13: when every output feature has a name and a registered type, the
    keys of the returned map (the available validation fields an error
    message lists) are the feature names in the order of their first
    occurrence, each once, followed by ["combined"] unless a feature
    already has that name. *)
Theorem map_keys_in_first_occurrence_order (features : list value) :
  forallb well_formed features = true ->
  exists m,
    get_feature_to_metric_names_map (VList features) = inr m /\
    map_keys m =
    map VStr
      (first_occurrences [] (names_of features)
       ++ if existsb (String.eqb COMBINED)
               (first_occurrences [] (names_of features))
          then [] else [COMBINED]).
Proof.
  intros Hwf. exists (full_map features).
  split; [now apply get_map_ok|].
  unfold Spec.full_map.
  apply keys_after_insert.
  exact (keys_after_build features [] [] Hwf eq_refl).
Qed.

(** X14: every list of metric names in a returned map is either the
    one-element list of the loss metric or the list the registry holds for
    some type: the map never carries metric names of its own making. *)
Theorem map_values_come_from_registry (output_features : value)
    (m : metrics_map) (k : value) (v : list string) :
  get_feature_to_metric_names_map output_features = inr m ->
  In (k, v) m ->
  v = [LOSS] \/ exists type, output_type_registry type = Some v.
Proof.
  unfold Validations.get_feature_to_metric_names_map.
  destruct (iterate output_features) as [e|features]; [discriminate|].
  cbn [bind Monad_result].
  destruct (collect_metric_names output_type_registry features [])
    as [e|m0] eqn:Ec; [discriminate|].
  cbn. intros Hm Hin. injection Hm as <-.
  apply in_map_insert in Hin as [->|Hin]; [now left|right].
  apply (collect_values_registered features [] m0) with (k := k);
    [intros k' v' []|exact Ec|exact Hin].
Qed.

(** X15: on a configuration whose output features are mappings with string
    names and types, the check fails at the first output feature that has
    no name, no type or an unregistered type, with the [KeyError] of that
    lookup (['name'], ['type'], or the type itself), whatever the trainer
    section holds. *)
Theorem first_bad_feature_decides (config : dict) (features : list value)
    (e : exn) :
  dict_lookup config OUTPUT_FEATURES = Some (VList features) ->
  forallb feature_typed features = true ->
  first_failure output_type_registry features = Some e ->
  check_validation_metrics_are_valid config = inl e.
Proof.
  intros Hof Hty Hfail. rewrite check_unfold, Hof.
  unfold Validations.get_feature_to_metric_names_map.
  cbn [iterate bind Monad_result].
  now rewrite (collect_first_failure features [] Hty), Hfail.
Qed.


(** X17: a validation field that is not a string is never accepted either,
    when the output features are in order: a list or a mapping makes the
    membership test raise [TypeError], and any other object is answered
    with the [ValueError] about the field. *)
Theorem non_string_field_refused (config : dict) (features : list value)
    (field metric : value) :
  dict_lookup config OUTPUT_FEATURES = Some (VList features) ->
  forallb well_formed features = true ->
  validation_field_of config = Some field ->
  validation_metric_of config = Some metric ->
  is_str field = false ->
  check_validation_metrics_are_valid config =
  inl (if hashable field then field_error field (full_map features)
       else TypeError).
Proof.
  intros Hof Hwf Hfield Hmetric Hstr.
  rewrite check_unfold, Hof, (get_map_ok _ _ Hwf).
  destruct (trainer_entry_getitem _ _ _ Hfield) as (trainer & Ht & Hgf).
  destruct (trainer_entry_getitem _ _ _ Hmetric) as (trainer' & Ht' & Hgm).
  rewrite Ht in Ht'. injection Ht' as <-.
  rewrite Ht, Hgf, Hgm.
  assert (Hkeys : exists keys,
            map_keys (full_map features) = map VStr keys).
  { eexists. unfold Spec.full_map. apply keys_after_insert.
    exact (keys_after_build features [] [] Hwf eq_refl). }
  destruct Hkeys as [keys Hkeys].
  assert (Habsent : forall m ks,
            map_keys m = map VStr ks -> map_lookup m field = None).
  { induction m as [|[k0 v0] m IH]; intros ks Hks; [reflexivity|].
    destruct ks as [|key ks]; [discriminate|].
    cbn in Hks. injection Hks as -> Hrest. cbn [map_lookup].
    destruct field; try discriminate Hstr; cbn; now apply (IH ks). }
  unfold check_fields, map_contains.
  destruct (hashable field); [|reflexivity].
  now rewrite (Habsent _ _ Hkeys).
Qed.

(** X18: the check reads the output features and the trainer section and
    nothing else: two configurations that agree on these two entries get
    the same answer, whatever their input features and other sections. *)
Theorem check_reads_two_sections_only (config config' : dict) :
  dict_lookup config OUTPUT_FEATURES = dict_lookup config' OUTPUT_FEATURES ->
  dict_lookup config TRAINER = dict_lookup config' TRAINER ->
  check_validation_metrics_are_valid config =
  check_validation_metrics_are_valid config'.
Proof.
  intros Hof Htrainer. rewrite !check_unfold. now rewrite Hof, Htrainer.
Qed.

End Registry.

Import Samples SamplesMore.

Lemma map_keys_in_first_occurrence_order_witness :
  exists m,
    get_feature_to_metric_names_map sample_registry
      (VList [feature "y" "category"; feature "z" "number";
              feature "y" "binary"]) = inr m /\
    map_keys m = [VStr "y"; VStr "z"; VStr "combined"].
Proof.
  exact (map_keys_in_first_occurrence_order sample_registry
           [feature "y" "category"; feature "z" "number";
            feature "y" "binary"] eq_refl).
Defined.

Lemma map_values_come_from_registry_witness :
  ["loss"; "accuracy"; "hits_at_k"] = [LOSS] \/
  exists type, sample_registry type = Some ["loss"; "accuracy"; "hits_at_k"].
Proof.
  apply (map_values_come_from_registry sample_registry
           (VList [feature "y" "category"])
           [(VStr "y", ["loss"; "accuracy"; "hits_at_k"]);
            (VStr "combined", ["loss"])]
           (VStr "y")).
  - reflexivity.
  - simpl. tauto.
Defined.

Lemma first_bad_feature_decides_witness :
  check_validation_metrics_are_valid sample_registry config_two_bad_features
  = inl (KeyError (VStr "type")).
Proof.
  exact (first_bad_feature_decides sample_registry config_two_bad_features
           _ _ eq_refl eq_refl eq_refl).
Defined.


Lemma non_string_field_refused_witness :
  check_validation_metrics_are_valid sample_registry config_list_field =
  inl TypeError.
Proof.
  exact (non_string_field_refused sample_registry config_list_field
           [feature "y" "category"] (VList [VStr "y"]) (VStr "loss")
           eq_refl eq_refl eq_refl eq_refl eq_refl).
Defined.

Lemma check_reads_two_sections_only_witness :
  check_validation_metrics_are_valid sample_registry plain_config =
  check_validation_metrics_are_valid sample_registry
    ((INPUT_FEATURES, VList [feature "y" "number"]) :: plain_config).
Proof.
  exact (check_reads_two_sections_only sample_registry plain_config
           ((INPUT_FEATURES, VList [feature "y" "number"]) :: plain_config)
           eq_refl eq_refl).
Defined.

End MetricsMore.

(** ** The deprecated entry point of [ludwig.schema] *)

Module SchemaEntryFacts.
Import Py Constants Schema Validations Spec SpecMore PipelineFacts.
Import PipelineMore.

Section Env.

Variable output_type_registry : string -> option (list string).
Variable env : collaborators.

Local Abbreviation check_validation_metrics_are_valid :=
  (check_validation_metrics_are_valid output_type_registry).

(** Every way a run of the deprecated entry point can go. *)
Lemma run_deprecated (config : dict) :
  run (SchemaEntry.validate_config env config) =
  match upgrade_config_dict_to_latest_version env config with
  | inl e => (inl e, [CallUpgrade config])
  | inr updated_config =>
      match split_kwargs updated_config with
      | inl e => (inl e, [CallUpgrade config])
      | inr kwargs =>
          match get_splitter env kwargs with
          | inl e => (inl e, [CallUpgrade config; CallGetSplitter kwargs])
          | inr s =>
              let before :=
                CallUpgrade config :: splitter_trace updated_config kwargs in
              match splitter_validate env s updated_config with
              | inl e => (inl e, before)
              | inr _ =>
                  match get_schema (providers env)
                          (model_type_of updated_config) with
                  | inl e =>
                      (inl e,
                       before
                       ++ [ LockAcquire;
                            CallGetSchema (model_type_of updated_config);
                            LockRelease ])
                  | inr schema =>
                      (validate env updated_config schema get_validator,
                       before
                       ++ [ LockAcquire;
                            CallGetSchema (model_type_of updated_config);
                            CallGetValidator;
                            CallValidate updated_config schema;
                            LockRelease ])
                  end
              end
          end
      end
  end.
Proof.
  unfold run, SchemaEntry.validate_config, call, with_lock, emit, lift,
    model_type_of, splitter_trace, split_kwargs.
  cbn.
  destruct (upgrade_config_dict_to_latest_version env config)
    as [e|updated_config]; [reflexivity|].
  cbn.
  destruct (get (dict_get updated_config PREPROCESSING (VDict [])) SPLIT
              (VDict [])) as [e|split_options]; [reflexivity|].
  cbn.
  destruct split_options as [| | | | |kwargs]; try reflexivity.
  cbn.
  destruct (get_splitter env kwargs) as [e|s]; [reflexivity|].
  cbn.
  destruct (splitter_validate env s updated_config) as [e|[]];
    [reflexivity|].
  cbn.
  destruct (get_schema (providers env) _) as [e|schema]; [reflexivity|].
  cbn.
  destruct (validate env updated_config schema get_validator) as [e|[]];
    reflexivity.
Qed.


(** X20: the two entry points report different errors for a configuration
    that both the structural validation and the splitter refuse: the
    deprecated one asks the splitter first and raises its exception, the
    current one validates the structure first and raises that exception. *)
Theorem entry_points_differ_in_precedence (config updated_config : dict)
    (schema : value) (kwargs : dict) (s : splitter env)
    (structural_error splitter_error : exn) :
  upgrade_config_dict_to_latest_version env config = inr updated_config ->
  get_schema (providers env) (model_type_of updated_config) = inr schema ->
  validate env updated_config schema get_validator = inl structural_error ->
  split_kwargs updated_config = inr kwargs ->
  get_splitter env kwargs = inr s ->
  splitter_validate env s updated_config = inl splitter_error ->
  fst (run (SchemaEntry.validate_config env config)) = inl splitter_error /\
  fst (run (Validations.validate_config output_type_registry env config
              true)) = inl structural_error.
Proof.
  intros Hup Hschema Hvalid Hkw Hs Hsv. split.
  - rewrite run_deprecated, Hup, Hkw, Hs. cbn zeta. now rewrite Hsv.
  - rewrite run_with_auxiliary, Hup, Hschema. cbn zeta. now rewrite Hvalid.
Qed.

(** X21: the current entry point with the auxiliary validations on accepts
    a configuration exactly when the deprecated one accepts it and
    [check_validation_metrics_are_valid] accepts its upgraded form; and
    whatever the deprecated one accepts, the current one accepts with the
    auxiliary validations off. *)
Theorem entry_points_agree_on_acceptance (config : dict) :
  (fst (run (Validations.validate_config output_type_registry env config
               true)) = inr tt <->
   fst (run (SchemaEntry.validate_config env config)) = inr tt /\
   exists updated_config,
     upgrade_config_dict_to_latest_version env config = inr updated_config /\
     check_validation_metrics_are_valid updated_config = inr tt) /\
  (fst (run (SchemaEntry.validate_config env config)) = inr tt ->
   fst (run (Validations.validate_config output_type_registry env config
               false)) = inr tt).
Proof.
  rewrite run_with_auxiliary, run_deprecated, run_structural.
  destruct (upgrade_config_dict_to_latest_version env config)
    as [e|updated_config].
  { split; [split|]; try discriminate. intros [H _]. discriminate H. }
  destruct (get_schema (providers env) (model_type_of updated_config))
    as [e|schema]; cbn zeta.
  { split; [split|]; try discriminate.
    - intros [H _]. revert H.
      destruct (split_kwargs updated_config) as [e'|kwargs];
        [discriminate|].
      destruct (get_splitter env kwargs) as [e'|s]; [discriminate|].
      cbn zeta.
      destruct (splitter_validate env s updated_config) as [e'|[]];
        discriminate.
    - destruct (split_kwargs updated_config) as [e'|kwargs];
        [discriminate|].
      destruct (get_splitter env kwargs) as [e'|s]; [discriminate|].
      cbn zeta.
      destruct (splitter_validate env s updated_config) as [e'|[]];
        discriminate. }
  destruct (validate env updated_config schema get_validator) as [e|[]].
  { split; [split|]; try discriminate.
    - intros [H _]. revert H.
      destruct (split_kwargs updated_config) as [e'|kwargs];
        [discriminate|].
      destruct (get_splitter env kwargs) as [e'|s]; [discriminate|].
      cbn zeta.
      destruct (splitter_validate env s updated_config) as [e'|[]];
        discriminate.
    - destruct (split_kwargs updated_config) as [e'|kwargs];
        [discriminate|].
      destruct (get_splitter env kwargs) as [e'|s]; [discriminate|].
      cbn zeta.
      destruct (splitter_validate env s updated_config) as [e'|[]];
        discriminate. }
  split; [|reflexivity].
  destruct (split_kwargs updated_config) as [e|kwargs].
  { split; [discriminate|]. intros [H _]. discriminate H. }
  destruct (get_splitter env kwargs) as [e|s].
  { split; [discriminate|]. intros [H _]. discriminate H. }
  cbn zeta.
  destruct (splitter_validate env s updated_config) as [e|[]].
  { split; [discriminate|]. intros [H _]. discriminate H. }
  destruct (check_validation_metrics_are_valid updated_config) as [e|[]]
    eqn:Hcheck.
  - split; [discriminate|].
    intros [_ (updated' & Hup & Hok)]. injection Hup as <-. congruence.
  - split; [|reflexivity].
    intros _. split; [reflexivity|]. now exists updated_config.
Qed.

End Env.

Import Samples SamplesMore.

Lemma entry_points_differ_in_precedence_witness :
  fst (run (SchemaEntry.validate_config refusing_both plain_config)) =
    inl (ForeignError "ValueError" "bad split") /\
  fst (run (Validations.validate_config sample_registry refusing_both
              plain_config true)) =
    inl (ForeignError "ValidationError" "refused").
Proof.
  exact (entry_points_differ_in_precedence sample_registry refusing_both
           plain_config plain_config _ [] tt _ _
           eq_refl eq_refl eq_refl eq_refl eq_refl eq_refl).
Defined.

Lemma entry_points_agree_on_acceptance_witness :
  fst (run (Validations.validate_config sample_registry permissive
              plain_config false)) = inr tt.
Proof.
  exact (proj2 (entry_points_agree_on_acceptance sample_registry permissive
                  plain_config) eq_refl).
Defined.

End SchemaEntryFacts.
